(** * DarkRP job generator: a shallow embedding of [jobgeneratordarkrp.py]

    The program is an interactive prompt loop feeding a string template.
    It is embedded here as a state-and-exception monad over an explicit
    world: the scripted lines still to be read from standard input, the
    chunks written to standard output, the wall clock, the file system
    and the generator object's [jobs] list.

    - Standard input is a finite script of lines; reading past its end
      raises [EOFError], as [input()] does at the end of a file.
    - Text is modelled as Rocq [string]s read as ASCII text: the case
      mappings and the whitespace test below are Python's on code points
      below 128 and leave the others alone.
    - Opening and writing a file always succeed: the [OSError]s of a
      full disk or a read-only directory are not modelled.
    - A [while True:] loop runs on fuel taken from the length of the
      script; [main_total] shows that the fuel never runs out. *)

From Stdlib Require Import ZArith Ascii String List Lia.
From Stdlib Require Import DecimalString DecimalZ DecimalPos.
From stdpp Require Import gmap strings list fin_maps.

(** ** Python string primitives *)

Module Py.

(** The double quote character, and a line feed. *)
Definition dq : string := String (ascii_of_N 34) EmptyString.
Definition nl : string := String (ascii_of_N 10) EmptyString.

(** [str.isspace] on ASCII: TAB, LF, VT, FF, CR, FS, GS, RS, US, SPACE. *)
Definition is_space (c : ascii) : bool :=
  let n := N_of_ascii c in
  ((9 <=? n) && (n <=? 13) || (28 <=? n) && (n <=? 32))%N.

Fixpoint lstrip (s : string) : string :=
  match s with
  | EmptyString => EmptyString
  | String c r => if is_space c then lstrip r else s
  end.

Fixpoint rstrip (s : string) : string :=
  match s with
  | EmptyString => EmptyString
  | String c r =>
      match rstrip r with
      | EmptyString => if is_space c then EmptyString else String c EmptyString
      | r' => String c r'
      end
  end.

(** [s.strip()] *)
Definition strip (s : string) : string := rstrip (lstrip s).

(** Truthiness of a [str]: non-empty. *)
Definition truthy (s : string) : bool :=
  match s with EmptyString => false | String _ _ => true end.

(** Truthiness of a value that is a [str] or [None]. *)
Definition truthy_opt (v : option string) : bool :=
  match v with None => false | Some s => truthy s end.

Fixpoint map_chars (f : ascii -> ascii) (s : string) : string :=
  match s with
  | EmptyString => EmptyString
  | String c r => String (f c) (map_chars f r)
  end.

Definition lower_char (c : ascii) : ascii :=
  let n := N_of_ascii c in
  if ((65 <=? n) && (n <=? 90))%N then ascii_of_N (n + 32) else c.

Definition upper_char (c : ascii) : ascii :=
  let n := N_of_ascii c in
  if ((97 <=? n) && (n <=? 122))%N then ascii_of_N (n - 32) else c.

(** [s.lower()] and [s.upper()] *)
Definition lower : string -> string := map_chars lower_char.
Definition upper : string -> string := map_chars upper_char.

(** [s.replace(old, new)] for a one-character [old]. *)
Fixpoint replace (old : ascii) (new : string) (s : string) : string :=
  match s with
  | EmptyString => EmptyString
  | String c r =>
      if Ascii.eqb c old then new +:+ replace old new r
      else String c (replace old new r)
  end.

(** [sep.join(l)] *)
Definition join (sep : string) (l : list string) : string := String.concat sep l.

(** [str(n)] for an [int]: decimal digits, a leading minus sign for a
    negative number. *)
Definition str (z : Z) : string := NilZero.string_of_int (Z.to_int z).

(** [s * n] *)
Fixpoint repeat (s : string) (n : nat) : string :=
  match n with
  | O => EmptyString
  | S k => s +:+ repeat s k
  end.

(** A number in at least [width] digits, as [%02d] and the like print
    it for a number that is not negative. *)
Definition zero_pad (width : nat) (z : Z) : string :=
  repeat "0" (width - String.length (str z)) +:+ str z.

(** [str(b).lower()] starts from [str(b)], which is [True] or [False]. *)
Definition str_bool (b : bool) : string := if b then "True" else "False".

Definition digit_val (c : ascii) : option Z :=
  let n := N_of_ascii c in
  if ((48 <=? n) && (n <=? 57))%N then Some (Z.of_N (n - 48)) else None.

(** The digits after the first one: decimal digits, with single
    underscores allowed between two digits.  [us] records that the
    previous character was an underscore. *)
Fixpoint int_digits (s : string) (acc : Z) (us : bool) : option Z :=
  match s with
  | EmptyString => if us then None else Some acc
  | String c r =>
      match digit_val c with
      | Some d => int_digits r (10 * acc + d) false
      | None =>
          if Ascii.eqb c "_" then (if us then None else int_digits r acc true)
          else None
      end
  end.

Definition int_unsigned (s : string) : option Z :=
  match s with
  | EmptyString => None
  | String c r =>
      match digit_val c with
      | Some d => int_digits r d false
      | None => None
      end
  end.

(** [int(s)] for a [str] in base ten: surrounding whitespace is dropped,
    one sign is allowed, then digits.  [None] stands for [ValueError].
    (The interpreter's optional cap on the number of digits is not
    modelled.) *)
Definition int (s : string) : option Z :=
  match strip s with
  | String "-" r => option_map Z.opp (int_unsigned r)
  | String "+" r => int_unsigned r
  | t => int_unsigned t
  end.

End Py.

(** ** The world the program runs in *)

(** The exceptions the modelled code can raise. *)
Inductive exn := ValueError | EOFError | TypeError | AttributeError.

#[global] Instance exn_eq_dec : EqDecision exn.
Proof. solve_decision. Defined.

(** The result of running a piece of the program: a value, a raised
    exception, or [OutOfFuel] when a loop of the model was cut short
    (shown below never to happen). *)
Inductive outcome (A : Type) :=
  | Ret (a : A)
  | Raise (e : exn)
  | OutOfFuel.
Arguments Ret {A} a.
Arguments Raise {A} e.
Arguments OutOfFuel {A}.

(** What [datetime.now()] returns, to the second. *)
Record datetime := mkDatetime {
  year : Z; month : Z; day : Z; hour : Z; minute : Z; second : Z }.

(** One entry of [self.jobs]. *)
Record Job := mkJob {
  team_name : string; job_name : option string; code : string }.

(** The [settings] dict of [get_spawn_settings]. *)
Record SpawnSettings := mkSpawn {
  health : Z; max_health : Z; armor : Z; max_armor : Z;
  walk_speed : Z; run_speed : Z; jump_power : Z }.

(** File operations, in the order the program performs them. *)
Inductive fs_event :=
  | Opened (name : string)
  | Wrote (name data : string)
  | Closed (name : string).

Record World := mkWorld {
  jobs : list Job;                (* self.jobs *)
  stdin : list string;            (* the lines still to be read *)
  stdout : list string;           (* the chunks written so far *)
  clock : nat -> datetime;        (* the n-th reading of the clock *)
  ticks : nat;                    (* how often the clock was read *)
  files : gmap string string;     (* file name to content *)
  fs_log : list fs_event }.

Definition set_jobs (j : list Job) (w : World) : World :=
  mkWorld j (stdin w) (stdout w) (clock w) (ticks w) (files w) (fs_log w).
Definition set_stdin (i : list string) (w : World) : World :=
  mkWorld (jobs w) i (stdout w) (clock w) (ticks w) (files w) (fs_log w).
Definition set_stdout (o : list string) (w : World) : World :=
  mkWorld (jobs w) (stdin w) o (clock w) (ticks w) (files w) (fs_log w).
Definition set_ticks (n : nat) (w : World) : World :=
  mkWorld (jobs w) (stdin w) (stdout w) (clock w) n (files w) (fs_log w).
Definition set_files (f : gmap string string) (l : list fs_event) (w : World) : World :=
  mkWorld (jobs w) (stdin w) (stdout w) (clock w) (ticks w) f l.

(** ** The monad *)

Definition M (A : Type) : Type := World -> outcome A * World.

Definition ret {A} (a : A) : M A := fun w => (Ret a, w).

Definition bind {A B} (m : M A) (k : A -> M B) : M B :=
  fun w =>
    match m w with
    | (Ret a, w') => k a w'
    | (Raise e, w') => (Raise e, w')
    | (OutOfFuel, w') => (OutOfFuel, w')
    end.

Definition raise {A} (e : exn) : M A := fun w => (Raise e, w).

Declare Scope py_scope.
Delimit Scope py_scope with py.
Notation "x <- m ;; k" := (bind m (fun x => k))
  (at level 100, m at next level, right associativity) : py_scope.
Notation "m ;;; k" := (bind m (fun _ => k))
  (at level 100, right associativity) : py_scope.
Open Scope py_scope.

(** [try: body  except e: handler] *)
Definition try_except {A} (body : M A) (e : exn) (handler : M A) : M A :=
  fun w =>
    match body w with
    | (Raise e', w') =>
        if decide (e' = e) then handler w' else (Raise e', w')
    | r => r
    end.

(** [fuel] rounds of a [while True:] loop.  The body returns [inl s] to
    go round again with the loop's variables [s], and [inr a] to leave
    the loop ([break] or [return]) with [a]. *)
Fixpoint loop {S A} (fuel : nat) (body : S -> M (S + A)) (s : S) : M A :=
  match fuel with
  | O => fun w => (OutOfFuel, w)
  | Datatypes.S k =>
      r <- body s ;;
      match r with
      | inl s' => loop k body s'
      | inr a => ret a
      end
  end.

(** Every [while True:] loop of the program reads a line in each round,
    and reading past the end of the script raises [EOFError]: on a
    script of [n] lines no loop goes round more than [n + 1] times. *)
Definition while_true {S A} (body : S -> M (S + A)) (s : S) : M A :=
  fun w => loop (Datatypes.S (length (stdin w))) body s w.

(** ** Input and output *)

(** [input(prompt)]: writes the prompt, then reads one line (without
    its line end); [EOFError] at the end of the script. *)
Definition input (prompt : string) : M string :=
  fun w =>
    let w1 := set_stdout (stdout w ++ [prompt]) w in
    match stdin w with
    | [] => (Raise EOFError, w1)
    | l :: rest => (Ret l, set_stdin rest w1)
    end.

(** [print(s)] *)
Definition print (s : string) : M unit :=
  fun w => (Ret tt, set_stdout (stdout w ++ [s +:+ Py.nl]) w).

(** [datetime.now()] *)
Definition now : M datetime :=
  fun w => (Ret (clock w (ticks w)), set_ticks (S (ticks w)) w).

(** [open(name, 'w')]: creates the file, or empties it. *)
Definition open_w (name : string) : M unit :=
  fun w => (Ret tt, set_files (<[name := EmptyString]> (files w))
                              (fs_log w ++ [Opened name]) w).

(** [f.write(data)] on the file opened under [name]. *)
Definition write (name data : string) : M unit :=
  fun w => (Ret tt, set_files (<[name := default EmptyString (files w !! name) +:+ data]> (files w))
                              (fs_log w ++ [Wrote name data]) w).

(** Leaving the [with] block. *)
Definition close (name : string) : M unit :=
  fun w => (Ret tt, set_files (files w) (fs_log w ++ [Closed name]) w).

(** [int(v)] for a value that is a [str] or [None]. *)
Definition int_of (v : option string) : M Z :=
  match v with
  | None => raise TypeError
  | Some s => match Py.int s with Some z => ret z | None => raise ValueError end
  end.

(** The receiver of a [str] method call: [None] has no such method. *)
Definition str_of (v : option string) : M string :=
  match v with
  | None => raise AttributeError
  | Some s => ret s
  end.

(** A value that is a [str] or [None] inside an f-string. *)
Definition fmt (v : option string) : string := default "None" v.

(** ** The generator *)

(** The text [get_user_input] hands to [input]: the default is shown in
    brackets when it is truthy. *)
Definition prompt_text (prompt : string) (default : option string) : string :=
  if Py.truthy_opt default
  then prompt +:+ " [" +:+ fmt default +:+ "]: "
  else prompt +:+ ": ".

(** [get_user_input(prompt, default, required)] *)
Definition get_user_input (prompt : string) (default : option string)
    (required : bool) : M (option string) :=
  while_true (fun _ : unit =>
    line <- input (prompt_text prompt default) ;;
    let user_input := Py.strip line in
    if negb (Py.truthy user_input) && bool_decide (is_Some default)
    then ret (inr default)
    else if Py.truthy user_input || negb required
    then ret (inr (if Py.truthy user_input then Some user_input else None))
    else print "This field is required!" ;;; ret (inl tt)) tt.

(** One round of the loop of [get_validated_int]. *)
Definition get_validated_int_round (prompt : string) (min_val max_val : Z)
    (default : string) (_ : unit) : M (unit + Z) :=
  value <- get_user_input prompt (Some default) true ;;
  try_except
    (value_int <- int_of value ;;
     if ((min_val <=? value_int) && (value_int <=? max_val))%Z
     then ret (inr value_int)
     else print ("Value must be between " +:+ Py.str min_val +:+ " and "
                 +:+ Py.str max_val +:+ "!") ;;; ret (inl tt))
    ValueError
    (print "Invalid input, please enter a number!" ;;; ret (inl tt)).

(** [get_validated_int(prompt, min_val, max_val, default)] *)
Definition get_validated_int (prompt : string) (min_val max_val : Z)
    (default : string) : M Z :=
  while_true (get_validated_int_round prompt min_val max_val default) tt.

(** [get_color_input()] *)
Definition get_color_input : M string :=
  print (Py.nl +:+ "--- Color Settings ---") ;;;
  r <- get_validated_int "Red (0-255)" 0 255 "50" ;;
  g <- get_validated_int "Green (0-255)" 0 255 "50" ;;
  b <- get_validated_int "Blue (0-255)" 0 255 "255" ;;
  a <- get_validated_int "Alpha (0-255)" 0 255 "255" ;;
  ret ("Color(" +:+ Py.str r +:+ ", " +:+ Py.str g +:+ ", " +:+ Py.str b
       +:+ ", " +:+ Py.str a +:+ ")").

(** One round of the loop of [get_models_input]; the loop's variable is
    the list [models], and both [break]s leave the loop with it. *)
Definition get_models_round (models : list string) : M (list string + list string) :=
  model <- get_user_input "Model path (e.g., models/player/urban.mdl)" None false ;;
  if negb (Py.truthy_opt model)
  then ret (inr (if bool_decide (models = [])
                 then models ++ [Py.dq +:+ "models/player/urban.mdl" +:+ Py.dq]
                 else models))
  else
    let models := models ++ [Py.dq +:+ fmt model +:+ Py.dq] in
    again <- get_user_input "Add another model? (y/n)" (Some "n") true ;;
    again <- str_of again ;;
    if negb (String.eqb (Py.lower again) "y")
    then ret (inr models)
    else ret (inl models).

(** [get_models_input()] *)
Definition get_models_input : M string :=
  print (Py.nl +:+ "--- Player Models ---") ;;;
  models <- while_true get_models_round [] ;;
  match models with
  | [m] => ret m
  | _ => ret ("{" +:+ Py.join ", " models +:+ "}")
  end.

(** One round of the loop of [get_weapons_input]. *)
Definition get_weapons_round (weapons : list string) : M (list string + list string) :=
  weapon <- get_user_input "Weapon class (e.g., weapon_pistol)" None false ;;
  if negb (Py.truthy_opt weapon)
  then ret (inr (if bool_decide (weapons = [])
                 then weapons ++ [Py.dq +:+ "weapon_pistol" +:+ Py.dq]
                 else weapons))
  else
    let weapons := weapons ++ [Py.dq +:+ fmt weapon +:+ Py.dq] in
    again <- get_user_input "Add another weapon? (y/n)" (Some "n") true ;;
    again <- str_of again ;;
    if negb (String.eqb (Py.lower again) "y")
    then ret (inr weapons)
    else ret (inl weapons).

(** [get_weapons_input()] *)
Definition get_weapons_input : M string :=
  print (Py.nl +:+ "--- Weapons ---") ;;;
  weapons <- while_true get_weapons_round [] ;;
  ret ("{" +:+ Py.join ", " weapons +:+ "}").

(** [get_spawn_settings()] *)
Definition get_spawn_settings : M SpawnSettings :=
  print (Py.nl +:+ "--- Spawn Settings ---") ;;;
  v <- get_user_input "Health" (Some "100") true ;;
  health <- int_of v ;;
  v <- get_user_input "Max Health" (Some (Py.str health)) true ;;
  max_health <- int_of v ;;
  v <- get_user_input "Armor" (Some "0") true ;;
  armor <- int_of v ;;
  max_armor_input <- get_user_input "Max Armor (leave empty to match Armor)"
                       (Some (Py.str armor)) true ;;
  max_armor <- (if Py.truthy_opt max_armor_input then int_of max_armor_input
                else ret armor) ;;
  v <- get_user_input "Walk Speed" (Some "200") true ;;
  walk_speed <- int_of v ;;
  v <- get_user_input "Run Speed" (Some "400") true ;;
  run_speed <- int_of v ;;
  v <- get_user_input "Jump Power" (Some "200") true ;;
  jump_power <- int_of v ;;
  ret (mkSpawn health max_health armor max_armor walk_speed run_speed jump_power).

(** The f-string [job_template] of [create_job], as a function of the
    local variables it formats. *)
Definition job_template (team_name : string) (job_name : option string)
    (color models description weapons : string) (command : option string)
    (max_players salary : Z) (vote_required has_license can_demote : bool)
    (spawn_settings : SpawnSettings) : string :=
  team_name +:+ " = DarkRP.createJob(" +:+ Py.dq +:+ fmt job_name +:+ Py.dq +:+ ", {" +:+ Py.nl +:+
  "    color = " +:+ color +:+ "," +:+ Py.nl +:+
  "    model = " +:+ models +:+ "," +:+ Py.nl +:+
  "    description = [[" +:+ description +:+ "]]," +:+ Py.nl +:+
  "    weapons = " +:+ weapons +:+ "," +:+ Py.nl +:+
  "    command = " +:+ Py.dq +:+ fmt command +:+ Py.dq +:+ "," +:+ Py.nl +:+
  "    max = " +:+ Py.str max_players +:+ "," +:+ Py.nl +:+
  "    salary = " +:+ Py.str salary +:+ "," +:+ Py.nl +:+
  "    admin = 0," +:+ Py.nl +:+
  "    vote = " +:+ Py.lower (Py.str_bool vote_required) +:+ "," +:+ Py.nl +:+
  "    hasLicense = " +:+ Py.lower (Py.str_bool has_license) +:+ "," +:+ Py.nl +:+
  "    candemote = " +:+ Py.lower (Py.str_bool can_demote) +:+ "," +:+ Py.nl +:+
  Py.nl +:+
  "    PlayerSpawn = function(ply)" +:+ Py.nl +:+
  "        ply:SetHealth(" +:+ Py.str (health spawn_settings) +:+ ")" +:+ Py.nl +:+
  "        ply:SetMaxHealth(" +:+ Py.str (max_health spawn_settings) +:+ ")" +:+ Py.nl +:+
  "        ply:SetArmor(" +:+ Py.str (armor spawn_settings) +:+ ")" +:+ Py.nl +:+
  "        ply:SetMaxArmor(" +:+ Py.str (max_armor spawn_settings) +:+ ")" +:+ Py.nl +:+
  "        ply:SetWalkSpeed(" +:+ Py.str (walk_speed spawn_settings) +:+ ")" +:+ Py.nl +:+
  "        ply:SetRunSpeed(" +:+ Py.str (run_speed spawn_settings) +:+ ")" +:+ Py.nl +:+
  "        ply:SetJumpPower(" +:+ Py.str (jump_power spawn_settings) +:+ ")" +:+ Py.nl +:+
  "    end" +:+ Py.nl +:+
  "})".

(** [self.jobs.append(job)] *)
Definition append_job (j : Job) : M unit :=
  fun w => (Ret tt, set_jobs (jobs w ++ [j]) w).

(** A [y/n] prompt compared with ['y']. *)
Definition is_y (v : option string) : M bool :=
  s <- str_of v ;; ret (String.eqb (Py.lower s) "y").

(** [create_job()] *)
Definition create_job : M string :=
  print (Py.nl +:+ Py.repeat "=" 50) ;;;
  print "NEW DARKRP JOB" ;;;
  print (Py.repeat "=" 50) ;;;
  v <- get_user_input "Team Name (e.g., TEAM_SUPER)" (Some "TEAM_CUSTOM") true ;;
  v <- str_of v ;;
  let team_name := Py.upper v in
  job_name <- get_user_input "Job Name (e.g., Super Soldier)" (Some "Custom Job") true ;;
  color <- get_color_input ;;
  description <- get_user_input "Description" (Some "A custom DarkRP job") true ;;
  description <- str_of description ;;
  let description := Py.replace (ascii_of_N 10) "\n" description in
  models <- get_models_input ;;
  weapons <- get_weapons_input ;;
  name <- str_of job_name ;;
  command <- get_user_input "Chat command"
               (Some (Py.replace " " EmptyString (Py.lower name))) true ;;
  v <- get_user_input "Max Players" (Some "2") true ;;
  max_players <- int_of v ;;
  v <- get_user_input "Salary" (Some "50") true ;;
  salary <- int_of v ;;
  v <- get_user_input "Has license? (y/n)" (Some "y") true ;;
  has_license <- is_y v ;;
  v <- get_user_input "Vote required? (y/n)" (Some "n") true ;;
  vote_required <- is_y v ;;
  v <- get_user_input "Can be demoted? (y/n)" (Some "n") true ;;
  can_demote <- is_y v ;;
  spawn_settings <- get_spawn_settings ;;
  let job_template :=
    job_template team_name job_name color models description weapons command
      max_players salary vote_required has_license can_demote spawn_settings in
  append_job (mkJob team_name job_name job_template) ;;;
  ret job_template.

(** [for x in l: body(x)] *)
Fixpoint for_each {A} (l : list A) (body : A -> M unit) : M unit :=
  match l with
  | [] => ret tt
  | x :: rest => body x ;;; for_each rest body
  end.

(** [t.strftime('%Y%m%d_%H%M%S')] *)
Definition strftime_compact (t : datetime) : string :=
  Py.zero_pad 4 (year t) +:+ Py.zero_pad 2 (month t) +:+ Py.zero_pad 2 (day t)
  +:+ "_" +:+ Py.zero_pad 2 (hour t) +:+ Py.zero_pad 2 (minute t)
  +:+ Py.zero_pad 2 (second t).

(** [t.strftime('%d.%m.%Y %H:%M:%S')] *)
Definition strftime_human (t : datetime) : string :=
  Py.zero_pad 2 (day t) +:+ "." +:+ Py.zero_pad 2 (month t) +:+ "."
  +:+ Py.zero_pad 4 (year t) +:+ " " +:+ Py.zero_pad 2 (hour t) +:+ ":"
  +:+ Py.zero_pad 2 (minute t) +:+ ":" +:+ Py.zero_pad 2 (second t).

(** Reading [self.jobs]. *)
Definition get_jobs : M (list Job) := fun w => (Ret (jobs w), w).

(** [save_jobs()] *)
Definition save_jobs : M unit :=
  js <- get_jobs ;;
  if bool_decide (js = [])
  then print "No jobs to save!"
  else
    t <- now ;;
    let filename := "darkrp_jobs_" +:+ strftime_compact t +:+ ".lua" in
    open_w filename ;;;
    write filename ("-- DarkRP Jobs generated with Python Script" +:+ Py.nl) ;;;
    t' <- now ;;
    write filename ("-- Created on: " +:+ strftime_human t' +:+ Py.nl +:+ Py.nl) ;;;
    js <- get_jobs ;;
    for_each js (fun job =>
      write filename (code job) ;;;
      write filename (Py.nl +:+ Py.nl)) ;;;
    close filename ;;;
    print (Py.nl +:+ "✅ Jobs saved to: " +:+ filename).

(** [for i, job in enumerate(l, i0): print(...)] of the menu's listing. *)
Fixpoint print_jobs (i : Z) (l : list Job) : M unit :=
  match l with
  | [] => ret tt
  | job :: rest =>
      print (Py.str i +:+ ". " +:+ team_name job +:+ " - " +:+ fmt (job_name job)) ;;;
      print_jobs (i + 1) rest
  end.

Definition print_generated (job_code : string) : M unit :=
  print (Py.nl +:+ Py.repeat "=" 50) ;;;
  print "GENERATED CODE:" ;;;
  print (Py.repeat "=" 50) ;;;
  print job_code.

(** One round of the loop of [show_menu]; [break] is [inr]. *)
Definition show_menu_round (_ : unit) : M (unit + unit) :=
  print (Py.nl +:+ Py.repeat "=" 50) ;;;
  print "DARKRP JOB GENERATOR" ;;;
  print (Py.repeat "=" 50) ;;;
  print "1. Create a new job" ;;;
  print "2. Show all jobs" ;;;
  print "3. Save jobs" ;;;
  print "4. Exit" ;;;
  print (Py.repeat "=" 50) ;;;
  choice <- get_user_input "Choose an option" (Some "1") true ;;
  if bool_decide (choice = Some "1") then
    job_code <- create_job ;;
    print_generated job_code ;;; ret (inl tt)
  else if bool_decide (choice = Some "2") then
    js <- get_jobs ;;
    (if bool_decide (js = []) then print "No jobs created!"
     else
       print (Py.nl +:+ Py.repeat "=" 50) ;;;
       print "CREATED JOBS:" ;;;
       print (Py.repeat "=" 50) ;;;
       print_jobs 1 js) ;;;
    ret (inl tt)
  else if bool_decide (choice = Some "3") then
    save_jobs ;;; ret (inl tt)
  else if bool_decide (choice = Some "4") then
    js <- get_jobs ;;
    (if bool_decide (js = []) then ret tt
     else
       v <- get_user_input "Save jobs before exiting? (y/n)" (Some "y") true ;;
       yes <- is_y v ;;
       if yes then save_jobs else ret tt) ;;;
    print "Goodbye!" ;;;
    ret (inr tt)
  else
    print "Invalid input!" ;;; ret (inl tt).

(** [show_menu()] *)
Definition show_menu : M unit := while_true show_menu_round tt.

(** [main()], from the generator's creation on. *)
Definition main : M unit :=
  print "🎮 DarkRP Job Generator for Garry's Mod" ;;;
  print "Easily create custom DarkRP jobs with this tool!" ;;;
  v <- get_user_input "Do you want to create a job now? (y/n)" (Some "y") true ;;
  yes <- is_y v ;;
  if yes then
    job_code <- create_job ;;
    print_generated job_code ;;;
    v <- get_user_input "Save the job? (y/n)" (Some "y") true ;;
    yes <- is_y v ;;
    if yes then save_jobs else show_menu
  else show_menu.

(** A world at program start: nothing printed, no job, no file. *)
Definition initial_world (script : list string) (clk : nat -> datetime) : World :=
  mkWorld [] script [] clk 0 ∅ [].

Definition sample_clock (n : nat) : datetime :=
  mkDatetime 2024 3 9 (Z.of_nat n) 5 7.

(** *** Facts about the primitives *)

Section PyFacts.
Import Py.

Fixpoint no_space (s : string) : bool :=
  match s with
  | EmptyString => true
  | String c r => negb (is_space c) && no_space r
  end.

Lemma rstrip_no_space s : no_space s = true -> rstrip s = s.
Proof.
  induction s as [|c r IH]; simpl; [done|].
  intros [Hc Hr]%andb_prop. rewrite (IH Hr).
  destruct r; [|done]. by destruct (is_space c).
Qed.

Lemma lstrip_no_space s : no_space s = true -> lstrip s = s.
Proof.
  destruct s as [|c r]; simpl; [done|].
  intros [Hc _]%andb_prop. by destruct (is_space c).
Qed.

Lemma strip_no_space s : no_space s = true -> strip s = s.
Proof.
  intros H. unfold strip. rewrite lstrip_no_space by done.
  by apply rstrip_no_space.
Qed.

Lemma strip_empty_iff_lstrip s : strip s = EmptyString <-> lstrip s = EmptyString.
Proof.
  unfold strip. split; [|by intros ->].
  induction s as [|c r IH]; simpl; [done|].
  destruct (is_space c) eqn:Hc; [done|].
  simpl. rewrite Hc. by destruct (rstrip r).
Qed.

Lemma no_space_uint d : no_space (NilEmpty.string_of_uint d) = true.
Proof. induction d; simpl; done. Qed.

Lemma int_digits_uint_pos d (acc : positive) :
  int_digits (NilEmpty.string_of_uint d) (Z.pos acc) false
  = Some (Z.pos (Pos.of_uint_acc d acc)).
Proof.
  revert acc.
  induction d; intros acc; simpl; [done|..];
    (etrans; [|apply IHd]); f_equal; lia.
Qed.

Lemma int_unsigned_uint d :
  d <> Decimal.Nil ->
  int_unsigned (NilEmpty.string_of_uint d) = Some (Z.of_uint d).
Proof.
  induction d; intros Hd; [done|..]; unfold Z.of_uint; simpl;
    try apply (int_digits_uint_pos d).
  destruct d; simpl; try apply (int_digits_uint_pos _ 1);
    try (apply (int_digits_uint_pos d); fail); [done|].
  apply IHd. done.
Qed.

Lemma rstrip_cons c r :
  rstrip (String c r) =
  match rstrip r with
  | EmptyString => if is_space c then EmptyString else String c EmptyString
  | r' => String c r'
  end.
Proof. reflexivity. Qed.

Lemma rstrip_idemp s : rstrip (rstrip s) = rstrip s.
Proof.
  induction s as [|c r IH]; [done|]. rewrite (rstrip_cons c r).
  destruct (rstrip r) as [|x y] eqn:E.
  - destruct (is_space c) eqn:Hc; [done|]. cbn. by rewrite Hc.
  - rewrite rstrip_cons, IH. done.
Qed.

Lemma lstrip_head s :
  lstrip s = EmptyString \/ exists c r, lstrip s = String c r /\ is_space c = false.
Proof.
  induction s as [|c r IH]; [by left|]. cbn [lstrip].
  destruct (is_space c) eqn:Hc; [done|]. right. eauto.
Qed.

Lemma lstrip_rstrip_lstrip s : lstrip (rstrip (lstrip s)) = rstrip (lstrip s).
Proof.
  destruct (lstrip_head s) as [->|(c & r & -> & Hc)]; [done|].
  rewrite rstrip_cons. destruct (rstrip r); rewrite ?Hc; cbn [lstrip]; by rewrite Hc.
Qed.

Lemma strip_idemp s : strip (strip s) = strip s.
Proof. unfold strip. by rewrite lstrip_rstrip_lstrip, rstrip_idemp. Qed.

(** [int] drops the surrounding whitespace itself. *)
Lemma int_strip s : int (strip s) = int s.
Proof. unfold int. by rewrite strip_idemp. Qed.

End PyFacts.

Section PyRoundTrip.
Import Py.

Lemma string_of_pos_uint p :
  NilZero.string_of_uint (Pos.to_uint p) = NilEmpty.string_of_uint (Pos.to_uint p).
Proof.
  unfold NilZero.string_of_uint.
  destruct (Pos.to_uint p) eqn:E; [|done..].
  by destruct (DecimalPos.Unsigned.to_uint_nonnil p).
Qed.

Lemma first_char_uint d c r :
  NilEmpty.string_of_uint d = String c r -> digit_val c <> None.
Proof. destruct d; simpl; [done|..]; intros [= <- _]; done. Qed.

Lemma int_of_digits d :
  d <> Decimal.Nil ->
  int (NilEmpty.string_of_uint d) = Some (Z.of_uint d).
Proof.
  intros Hd. unfold int.
  rewrite strip_no_space by apply no_space_uint.
  rewrite <- (int_unsigned_uint d Hd).
  destruct (NilEmpty.string_of_uint d) as [|c r] eqn:E; [done|].
  pose proof (first_char_uint _ _ _ E) as Hc.
  destruct (Ascii.eqb_spec c "-") as [->|]; [done|].
  destruct (Ascii.eqb_spec c "+") as [->|]; [done|].
  destruct c as [[|] [|] [|] [|] [|] [|] [|] [|]]; done.
Qed.

(** [int(str(z)) == z]: the default a prompt shows for a number parses
    back to that number. *)
Lemma int_str z : int (str z) = Some z.
Proof.
  unfold str. rewrite <- (DecimalZ.of_to z) at 2.
  destruct z as [|p|p]; simpl Z.to_int; [done|..].
  - unfold NilZero.string_of_int. rewrite string_of_pos_uint.
    apply int_of_digits, DecimalPos.Unsigned.to_uint_nonnil.
  - unfold NilZero.string_of_int. rewrite string_of_pos_uint.
    unfold int. simpl lstrip.
    assert (Hs : strip (String "-" (NilEmpty.string_of_uint (Pos.to_uint p)))
                 = String "-" (NilEmpty.string_of_uint (Pos.to_uint p))).
    { apply strip_no_space. simpl. apply no_space_uint. }
    rewrite Hs. rewrite int_unsigned_uint by apply DecimalPos.Unsigned.to_uint_nonnil.
    done.
Qed.

Lemma str_truthy z : truthy (str z) = true.
Proof.
  unfold str. destruct z as [|p|p]; simpl; [done| |done].
  unfold NilZero.string_of_int, NilZero.string_of_uint.
  destruct (Pos.to_uint p) eqn:E; [done|done..].
Qed.

End PyRoundTrip.

(** ** Running loops: fuel is never the limit *)

Section Loops.
Context {S A : Type}.
Implicit Types (body : S -> M (S + A)) (s : S) (w : World).

(** A program that the model never cuts short. *)
Definition total {B} (m : M B) : Prop := forall w, fst (m w) <> OutOfFuel.

(** A loop body that reads at least one line whenever it goes round. *)
Definition consumes body : Prop :=
  forall s w s' w', body s w = (Ret (inl s'), w') ->
    length (stdin w') < length (stdin w).

Lemma loop_more_fuel body n m s w :
  n <= m -> fst (loop n body s w) <> OutOfFuel ->
  loop m body s w = loop n body s w.
Proof.
  revert m s w. induction n as [|n IH]; intros m s w Hle Hok; [done|].
  destruct m as [|m]; [lia|].
  simpl in *. unfold bind in *.
  destruct (body s w) as [[[s'|a]|e|] w1]; try done.
  apply IH; [lia|done].
Qed.

Lemma loop_total body n s w :
  consumes body -> (forall s, total (body s)) ->
  length (stdin w) < n -> fst (loop n body s w) <> OutOfFuel.
Proof.
  intros Hc Ht. revert s w.
  induction n as [|n IH]; intros s w Hn; [lia|].
  simpl. unfold bind.
  destruct (body s w) as [[[s'|a]|e|] w1] eqn:E; try done.
  - apply IH. apply Hc in E. lia.
  - specialize (Ht s w). by rewrite E in Ht.
Qed.

Lemma while_true_total body s :
  consumes body -> (forall s, total (body s)) -> total (while_true body s).
Proof. intros Hc Ht w. apply loop_total; [done..|lia]. Qed.

(** One round of a [while True:] loop. *)
Lemma while_true_unfold body s w :
  consumes body -> (forall s, total (body s)) ->
  while_true body s w =
  (r <- body s ;;
   match r with
   | inl s' => while_true body s'
   | inr a => ret a
   end) w.
Proof.
  intros Hc Ht. unfold while_true at 1. simpl. unfold bind.
  destruct (body s w) as [[[s'|a]|e|] w1] eqn:E; try done.
  unfold while_true. apply loop_more_fuel.
  - apply Hc in E. lia.
  - apply loop_total; [done..|]. apply Hc in E. lia.
Qed.

End Loops.

(** *** Inversion of [bind] *)

Lemma bind_Ret {A B} (m : M A) (k : A -> M B) w b w' :
  (x <- m ;; k x) w = (Ret b, w') ->
  exists a w1, m w = (Ret a, w1) /\ k a w1 = (Ret b, w').
Proof.
  unfold bind. destruct (m w) as [[a|e|] w1]; [eauto|done..].
Qed.

Lemma bind_total {A B} (m : M A) (k : A -> M B) :
  total m -> (forall a, total (k a)) -> total (x <- m ;; k x).
Proof.
  intros Hm Hk w. unfold bind. specialize (Hm w).
  destruct (m w) as [[a|e|] w1]; [apply Hk|done..].
Qed.

Lemma ret_total {A} (a : A) : total (ret a).
Proof. done. Qed.

Lemma raise_total {A} e : total (@raise A e).
Proof. done. Qed.

Lemma print_total s : total (print s).
Proof. done. Qed.

Lemma input_total p : total (input p).
Proof. intros w. unfold input. by destruct (stdin w). Qed.

Lemma try_except_total {A} (body handler : M A) e :
  total body -> total handler -> total (try_except body e handler).
Proof.
  intros Hb Hh w. unfold try_except. specialize (Hb w).
  destruct (body w) as [[a|e'|] w1]; [done| |done].
  destruct (decide (e' = e)); [apply Hh|done].
Qed.

Lemma int_of_total v : total (int_of v).
Proof. destruct v as [s|]; [|done]. simpl. by destruct (Py.int s). Qed.

Lemma str_of_total v : total (str_of v).
Proof. by destruct v. Qed.

Lemma is_y_total v : total (is_y v).
Proof. by destruct v. Qed.

Lemma if_total {A} (b : bool) (m1 m2 : M A) :
  total m1 -> total m2 -> total (if b then m1 else m2).
Proof. by destruct b. Qed.

Create HintDb total discriminated.
#[export] Hint Resolve ret_total raise_total print_total input_total
  int_of_total str_of_total is_y_total : total.
#[export] Hint Extern 2 (total (bind _ _)) => apply bind_total; [|intros ?] : total.
#[export] Hint Extern 2 (total (try_except _ _ _)) => apply try_except_total : total.
#[export] Hint Extern 3 (total (if _ then _ else _)) => apply if_total : total.

(** ** [get_user_input] *)

(** The world after [input(text)] has read one line, [rest] being the
    lines that remain. *)
Definition after_input (text : string) (rest : list string) (w : World) : World :=
  set_stdin rest (set_stdout (stdout w ++ [text]) w).

Section GetUserInput.
Variables (prompt : string) (default : option string) (required : bool).

Lemma get_user_input_eof w :
  stdin w = [] ->
  get_user_input prompt default required w =
  (Raise EOFError, set_stdout (stdout w ++ [prompt_text prompt default]) w).
Proof.
  intros H. unfold get_user_input, while_true. rewrite H. simpl.
  unfold bind, input. by rewrite H.
Qed.

(** A non-blank response is returned stripped. *)
Lemma get_user_input_answer w l rest :
  stdin w = l :: rest -> Py.truthy (Py.strip l) = true ->
  get_user_input prompt default required w =
  (Ret (Some (Py.strip l)), after_input (prompt_text prompt default) rest w).
Proof.
  intros H Hl. unfold get_user_input, while_true. rewrite H. simpl.
  unfold bind, input. rewrite H, Hl. simpl. done.
Qed.

End GetUserInput.

(** A blank response to a prompt that has a default returns the default. *)
Lemma get_user_input_blank_default prompt d required w l rest :
  stdin w = l :: rest -> Py.truthy (Py.strip l) = false ->
  get_user_input prompt (Some d) required w =
  (Ret (Some d), after_input (prompt_text prompt (Some d)) rest w).
Proof.
  intros H Hl. unfold get_user_input, while_true. rewrite H. simpl.
  unfold bind, input. rewrite H, Hl. simpl. done.
Qed.

(** A blank response to an optional prompt without default returns [None]. *)
Lemma get_user_input_blank_optional prompt w l rest :
  stdin w = l :: rest -> Py.truthy (Py.strip l) = false ->
  get_user_input prompt None false w =
  (Ret None, after_input (prompt_text prompt None) rest w).
Proof.
  intros H Hl. unfold get_user_input, while_true. rewrite H. simpl.
  unfold bind, input. rewrite H, Hl. simpl. done.
Qed.

(** The value a prompt with a default yields for the response [l]. *)
Definition answer_or (d l : string) : string :=
  if Py.truthy (Py.strip l) then Py.strip l else d.

Lemma get_user_input_default prompt d required w l rest :
  stdin w = l :: rest ->
  get_user_input prompt (Some d) required w =
  (Ret (Some (answer_or d l)), after_input (prompt_text prompt (Some d)) rest w).
Proof.
  intros H. unfold answer_or. destruct (Py.truthy (Py.strip l)) eqn:Hl.
  - by apply (get_user_input_answer _ _ _ w l rest).
  - by apply (get_user_input_blank_default _ _ _ w l rest).
Qed.

Lemma get_user_input_optional prompt w l rest :
  stdin w = l :: rest ->
  get_user_input prompt None false w =
  (Ret (if Py.truthy (Py.strip l) then Some (Py.strip l) else None),
   after_input (prompt_text prompt None) rest w).
Proof.
  intros H. destruct (Py.truthy (Py.strip l)) eqn:Hl.
  - by apply (get_user_input_answer _ _ _ w l rest).
  - by apply (get_user_input_blank_optional _ w l rest).
Qed.

(** The body of the loop reads a line in every round, so the loop is
    never cut short. *)
Lemma get_user_input_total prompt default required :
  total (get_user_input prompt default required).
Proof.
  apply while_true_total.
  - intros [] w [] w' E. unfold bind, input in E.
    destruct (stdin w) as [|l rest] eqn:Hin; [done|].
    simpl in E.
    repeat (match type of E with context [if ?b then _ else _] =>
              destruct b end; simpl in E; try done).
    injection E as <-. simpl. lia.
  - intros []. auto 10 with total.
Qed.
#[export] Hint Resolve get_user_input_total : total.

(** ** [get_validated_int] *)

Section GetValidatedInt.
Variables (prompt : string) (min_val max_val : Z) (default : string).

(** The number a response stands for, when [get_validated_int] takes it. *)
Definition accepted (l : string) : option Z :=
  match Py.int (answer_or default l) with
  | Some z => if ((min_val <=? z) && (z <=? max_val))%Z then Some z else None
  | None => None
  end.

(** What is printed for a response that is not taken. *)
Definition rejection (l : string) : string :=
  match Py.int (answer_or default l) with
  | Some _ => ("Value must be between " +:+ Py.str min_val +:+ " and "
               +:+ Py.str max_val +:+ "!") +:+ Py.nl
  | None => "Invalid input, please enter a number!" +:+ Py.nl
  end.

(** The world after a response was refused: the line is gone, the
    prompt and the message were written, nothing else changed. *)
Definition after_rejection (l : string) (rest : list string) (w : World) : World :=
  set_stdout (stdout w ++ [prompt_text prompt (Some default); rejection l])
             (set_stdin rest w).

Lemma get_validated_int_eof w :
  stdin w = [] ->
  get_validated_int prompt min_val max_val default w =
  (Raise EOFError, set_stdout (stdout w ++ [prompt_text prompt (Some default)]) w).
Proof.
  intros H. unfold get_validated_int, while_true. rewrite H. simpl.
  unfold get_validated_int_round, bind. by rewrite get_user_input_eof.
Qed.

(** What one round does with the response [l]. *)
Lemma get_validated_int_round_eq w l rest :
  stdin w = l :: rest ->
  get_validated_int_round prompt min_val max_val default tt w =
  match accepted l with
  | Some z => (Ret (inr z), after_input (prompt_text prompt (Some default)) rest w)
  | None => (Ret (inl tt), after_rejection l rest w)
  end.
Proof.
  intros H. unfold get_validated_int_round. unfold bind at 1.
  rewrite (get_user_input_default _ _ _ w l rest H).
  unfold try_except, bind, int_of, accepted, after_rejection, rejection.
  destruct (Py.int (answer_or default l)) as [z|] eqn:Hz; cbn.
  - destruct ((min_val <=? z)%Z && (z <=? max_val)%Z); cbn; [done|].
    unfold after_input, set_stdout, set_stdin. cbn. by rewrite <- !app_assoc.
  - unfold after_input, set_stdout, set_stdin. cbn. by rewrite <- !app_assoc.
Qed.

Lemma get_validated_int_round_consumes :
  consumes (get_validated_int_round prompt min_val max_val default).
Proof.
  intros [] w [] w' E. destruct (stdin w) as [|l rest] eqn:H.
  - unfold get_validated_int_round, bind in E.
    by rewrite get_user_input_eof in E.
  - rewrite (get_validated_int_round_eq w l rest H) in E.
    destruct (accepted l); [done|]. injection E as <-. simpl. lia.
Qed.

Lemma get_validated_int_round_total u :
  total (get_validated_int_round prompt min_val max_val default u).
Proof. unfold get_validated_int_round. auto 10 with total. Qed.

(** One round of the loop on the response [l]. *)
Lemma get_validated_int_step w l rest :
  stdin w = l :: rest ->
  get_validated_int prompt min_val max_val default w =
  match accepted l with
  | Some z => (Ret z, after_input (prompt_text prompt (Some default)) rest w)
  | None => get_validated_int prompt min_val max_val default (after_rejection l rest w)
  end.
Proof.
  intros H. unfold get_validated_int.
  rewrite while_true_unfold
    by (apply get_validated_int_round_consumes || apply get_validated_int_round_total).
  unfold bind at 1. rewrite (get_validated_int_round_eq w l rest H).
  destruct (accepted l); done.
Qed.

Lemma accepted_in_range l z :
  accepted l = Some z -> (min_val <= z <= max_val)%Z.
Proof.
  unfold accepted. destruct (Py.int _) as [z'|]; [|done].
  destruct (_ && _) eqn:E; [|done]. intros [= <-]. lia.
Qed.

(** The loop returns only a number in range, and the only exception
    that leaves it is the [EOFError] of an exhausted script. *)
Lemma get_validated_int_sound w r w' :
  get_validated_int prompt min_val max_val default w = (r, w') ->
  (exists z, r = Ret z /\ (min_val <= z <= max_val)%Z) \/ r = Raise EOFError.
Proof.
  remember (stdin w) as lines eqn:Hl. revert w Hl.
  induction lines as [|l rest IH]; intros w Hl.
  - rewrite get_validated_int_eof by done. intros [= <- _]. by right.
  - rewrite (get_validated_int_step w l rest) by done.
    destruct (accepted l) as [z|] eqn:Hz.
    + intros [= <- _]. left. exists z. split; [done|].
      by apply accepted_in_range in Hz.
    + apply IH. done.
Qed.


Lemma get_validated_int_total :
  total (get_validated_int prompt min_val max_val default).
Proof.
  intros w. destruct (get_validated_int _ _ _ _ w) as [r w'] eqn:E.
  apply get_validated_int_sound in E as [(z & -> & _)| ->]; done.
Qed.

End GetValidatedInt.
#[export] Hint Resolve get_validated_int_total : total.

(** A word and a number out of range are each answered by a message
    and the prompt again; the third response is taken. *)
Example get_validated_int_asks_again (clk : nat -> datetime) :
  get_validated_int "Red (0-255)" 0 255 "50"
    (initial_world ["two"; "300"; " 7 "; "left"] clk)
  = (Ret 7%Z,
     mkWorld [] ["left"]
       ["Red (0-255) [50]: ";
        "Invalid input, please enter a number!" +:+ Py.nl;
        "Red (0-255) [50]: ";
        "Value must be between 0 and 255!" +:+ Py.nl;
        "Red (0-255) [50]: "]
       clk 0 ∅ []).
Proof. reflexivity. Qed.

(** ** The two collection loops *)

(** An entry as the loops store it: wrapped in double quotes. *)
Definition quoted (s : string) : string := Py.dq +:+ s +:+ Py.dq.

(** The round both loops share, over the two prompts and the built-in
    default entry. *)
Definition collect_round (path_prompt again_prompt default_entry : string)
    (entries : list string) : M (list string + list string) :=
  entry <- get_user_input path_prompt None false ;;
  if negb (Py.truthy_opt entry)
  then ret (inr (if bool_decide (entries = [])
                 then entries ++ [quoted default_entry]
                 else entries))
  else
    let entries := entries ++ [quoted (fmt entry)] in
    again <- get_user_input again_prompt (Some "n") true ;;
    again <- str_of again ;;
    if negb (String.eqb (Py.lower again) "y")
    then ret (inr entries)
    else ret (inl entries).

Lemma get_models_round_eq :
  get_models_round =
  collect_round "Model path (e.g., models/player/urban.mdl)"
                "Add another model? (y/n)" "models/player/urban.mdl".
Proof. reflexivity. Qed.

Lemma get_weapons_round_eq :
  get_weapons_round =
  collect_round "Weapon class (e.g., weapon_pistol)"
                "Add another weapon? (y/n)" "weapon_pistol".
Proof. reflexivity. Qed.

(** A response is blank when nothing is left of it after [strip]. *)
Definition blank (l : string) : Prop := Py.truthy (Py.strip l) = false.

(** The reply to an "Add another?" prompt asks for one more entry: it
    is [y] or [Y]; a blank reply stands for the default [n]. *)
Definition says_yes (r : string) : bool := String.eqb (Py.lower (answer_or "n" r)) "y".

(** [entry_script ls es]: the lines [ls] are what a collection loop
    reads, and [es] are the entries the user gave in them.  The loop
    ends at a blank path, or at a reply other than [y] to the question
    that follows every entry. *)
Inductive entry_script : list string -> list string -> Prop :=
  | entry_blank l :
      blank l -> entry_script [l] []
  | entry_last e r :
      ~ blank e -> says_yes r = false -> entry_script [e; r] [Py.strip e]
  | entry_more e r ls es :
      ~ blank e -> says_yes r = true -> entry_script ls es ->
      entry_script (e :: r :: ls) (Py.strip e :: es).

(** The list a loop ends with: the entries, or the default entry when
    there is none. *)
Definition or_default (default_entry : string) (entries : list string) : list string :=
  if bool_decide (entries = []) then [quoted default_entry] else entries.

Lemma or_default_snoc d l x : or_default d (l ++ [x]) = l ++ [x].
Proof. unfold or_default. case_bool_decide as E; [|done]. by destruct l. Qed.

Section Collect.
Variables (path_prompt again_prompt default_entry : string).
Let round := collect_round path_prompt again_prompt default_entry.

(** The world after a path was entered and the question answered. *)
Definition after_entry (rest : list string) (w : World) : World :=
  after_input (prompt_text again_prompt (Some "n")) rest
    (after_input (prompt_text path_prompt None) rest w).

Lemma collect_round_eof entries w :
  stdin w = [] ->
  round entries w =
  (Raise EOFError, set_stdout (stdout w ++ [prompt_text path_prompt None]) w).
Proof.
  intros H. unfold round, collect_round, bind. by rewrite get_user_input_eof.
Qed.

Lemma collect_round_blank entries w l rest :
  stdin w = l :: rest -> blank l ->
  round entries w =
  (Ret (inr (or_default default_entry entries)),
   after_input (prompt_text path_prompt None) rest w).
Proof.
  intros H Hl. unfold round, collect_round, bind.
  rewrite (get_user_input_optional _ w l rest H), Hl. cbn.
  unfold or_default. by case_bool_decide; subst.
Qed.

Lemma collect_round_eof_again entries w e :
  stdin w = [e] -> ~ blank e ->
  exists w', round entries w = (Raise EOFError, w') /\ stdin w' = [].
Proof.
  intros H He. unfold round, collect_round, bind.
  rewrite (get_user_input_optional _ w e [] H).
  apply not_false_is_true in He.
  rewrite He; cbn -[get_user_input]; rewrite He; cbn -[get_user_input].
  rewrite get_user_input_eof by done. eauto.
Qed.

Lemma collect_round_entry entries w e r rest :
  stdin w = e :: r :: rest -> ~ blank e ->
  round entries w =
  (Ret (if says_yes r then inl (entries ++ [quoted (Py.strip e)])
        else inr (entries ++ [quoted (Py.strip e)])),
   after_entry rest w).
Proof.
  intros H He. unfold round, collect_round, bind.
  rewrite (get_user_input_optional _ w e (r :: rest) H).
  apply not_false_is_true in He.
  rewrite He; cbn -[get_user_input]; rewrite He; cbn -[get_user_input].
  rewrite (get_user_input_default _ _ _ _ r rest) by done.
  cbn. unfold says_yes. destruct (String.eqb _ "y"); cbn;
    unfold after_entry, after_input, set_stdin, set_stdout; cbn; done.
Qed.

Lemma collect_round_consumes : consumes round.
Proof.
  intros entries w s' w' E.
  destruct (stdin w) as [|e [|r rest]] eqn:H.
  - by rewrite collect_round_eof in E.
  - destruct (Py.truthy (Py.strip e)) eqn:He.
    + destruct (collect_round_eof_again entries w e H) as (w1 & E1 & _);
        [unfold blank; congruence|congruence].
    + by rewrite (collect_round_blank entries w e [] H He) in E.
  - destruct (Py.truthy (Py.strip e)) eqn:He.
    + rewrite (collect_round_entry entries w e r rest H) in E
        by (unfold blank; congruence).
      injection E as _ <-. cbn. lia.
    + by rewrite (collect_round_blank entries w e _ H He) in E.
Qed.

Lemma collect_round_total entries : total (round entries).
Proof. unfold round, collect_round. auto 10 with total. Qed.

Lemma collect_unfold entries w :
  while_true round entries w =
  (r <- round entries ;;
   match r with
   | inl s' => while_true round s'
   | inr a => ret a
   end) w.
Proof.
  apply while_true_unfold; [apply collect_round_consumes|apply collect_round_total].
Qed.

End Collect.

Section CollectRuns.
Variables (path_prompt again_prompt default_entry : string).
Let round := collect_round path_prompt again_prompt default_entry.

(** On a script that [entry_script] accepts the loop returns, having
    read exactly that script, with the quoted entries in entry order. *)
Lemma collect_run ls es :
  entry_script ls es ->
  forall entries w rest, stdin w = ls ++ rest ->
  exists w',
    while_true round entries w =
    (Ret (or_default default_entry (entries ++ map quoted es)), w')
    /\ stdin w' = rest /\ jobs w' = jobs w.
Proof.
  induction 1 as [l Hl|e r He Hr|e r ls es He Hr _ IH]; intros entries w rest Hin;
    unfold round; rewrite collect_unfold; unfold bind; cbn in Hin.
  - rewrite (collect_round_blank _ _ _ entries w l rest Hin Hl).
    cbn. rewrite app_nil_r. eauto.
  - rewrite (collect_round_entry _ _ _ entries w e r rest Hin He), Hr.
    cbn. rewrite or_default_snoc. eexists. split; [reflexivity|].
    by unfold after_entry, after_input.
  - rewrite (collect_round_entry _ _ _ entries w e r (ls ++ rest) Hin He), Hr.
    destruct (IH (entries ++ [quoted (Py.strip e)]) (after_entry path_prompt again_prompt (ls ++ rest) w) rest)
      as (w' & E & Hrest & Hjobs); [done|].
    exists w'. fold round. rewrite E. cbn. by rewrite <- app_assoc.
Qed.

(** Whenever the loop returns, what it read is such a script. *)
Lemma collect_returns n :
  forall entries w final w',
  length (stdin w) < n ->
  while_true round entries w = (Ret final, w') ->
  exists ls es,
    entry_script ls es /\ stdin w = ls ++ stdin w'
    /\ final = or_default default_entry (entries ++ map quoted es).
Proof.
  induction n as [|n IH]; intros entries w final w' Hn; [lia|].
  unfold round. rewrite collect_unfold. unfold bind.
  destruct (stdin w) as [|e [|r rest]] eqn:Hin.
  - by rewrite collect_round_eof.
  - destruct (Py.truthy (Py.strip e)) eqn:He.
    + destruct (collect_round_eof_again path_prompt again_prompt default_entry
                  entries w e Hin) as (w1 & -> & _); [unfold blank; congruence|done].
    + rewrite (collect_round_blank _ _ _ entries w e [] Hin He).
      intros [= <- <-]. exists [e], []. cbn. rewrite app_nil_r.
      split; [by constructor|done].
  - destruct (Py.truthy (Py.strip e)) eqn:He.
    + assert (Hnb : ~ blank e) by (unfold blank; congruence).
      rewrite (collect_round_entry _ _ _ entries w e r rest Hin Hnb).
      destruct (says_yes r) eqn:Hr.
      * intros E. apply IH in E as (ls & es & Hs & Hrest & ->); [|cbn in *; lia].
        exists (e :: r :: ls), (Py.strip e :: es). cbn in Hrest.
        split; [by constructor|]. split; [cbn; by rewrite Hrest|].
        cbn. by rewrite <- app_assoc.
      * intros [= <- <-]. exists [e; r], [Py.strip e]. cbn.
        split; [by constructor|]. split; [done|].
        by rewrite or_default_snoc.
    + rewrite (collect_round_blank _ _ _ entries w e _ Hin He).
      intros [= <- <-]. exists [e], []. cbn. rewrite app_nil_r.
      split; [by constructor|done].
Qed.

Lemma collect_loop_total entries : total (while_true round entries).
Proof.
  apply while_true_total; [apply collect_round_consumes|apply collect_round_total].
Qed.

End CollectRuns.

(** ** [get_models_input] and [get_weapons_input] *)

(** The words of the specification for both loops: entries are read
    until the first blank line, which ends the loop.  The result is the
    entries and the lines left unread. *)
Fixpoint until_blank (lines : list string) : option (list string * list string) :=
  match lines with
  | [] => None
  | l :: rest =>
      if Py.truthy (Py.strip l)
      then match until_blank rest with
           | Some (es, rest') => Some (Py.strip l :: es, rest')
           | None => None
           end
      else Some ([], rest)
  end.

Lemma get_models_input_run ls es w rest :
  entry_script ls es -> stdin w = ls ++ rest ->
  exists w',
    get_models_input w =
    (Ret match es with
         | [] => quoted "models/player/urban.mdl"
         | [e] => quoted e
         | _ => "{" +:+ Py.join ", " (map quoted es) +:+ "}"
         end, w')
    /\ stdin w' = rest /\ jobs w' = jobs w.
Proof.
  intros Hs Hin. unfold get_models_input. unfold bind at 1. cbn [print].
  unfold bind. rewrite get_models_round_eq.
  edestruct (collect_run "Model path (e.g., models/player/urban.mdl)"
               "Add another model? (y/n)" "models/player/urban.mdl" ls es Hs [])
    as (w' & -> & Hrest & Hjobs); [exact Hin|].
  exists w'. split; [|done]. cbn [app].
  destruct es as [|e1 [|e2 es]]; done.
Qed.

Lemma get_models_input_returns w r w' :
  get_models_input w = (Ret r, w') ->
  exists ls es, entry_script ls es /\ stdin w = ls ++ stdin w'.
Proof.
  unfold get_models_input. unfold bind at 1. cbn [print].
  intros (models & w1 & E & Hr)%bind_Ret.
  rewrite get_models_round_eq in E.
  apply (collect_returns _ _ _ (S (length (stdin w)))) in E
    as (ls & es & Hs & Hin & _); [|cbn; lia].
  exists ls, es. split; [done|]. cbn in Hin. rewrite Hin.
  destruct models as [|m [|m' ms]]; by injection Hr as _ <-.
Qed.

Lemma get_weapons_input_run ls es w rest :
  entry_script ls es -> stdin w = ls ++ rest ->
  exists w',
    get_weapons_input w =
    (Ret ("{" +:+ Py.join ", " (map quoted (if bool_decide (es = [])
                                            then ["weapon_pistol"] else es))
          +:+ "}"), w')
    /\ stdin w' = rest /\ jobs w' = jobs w.
Proof.
  intros Hs Hin. unfold get_weapons_input. unfold bind at 1. cbn [print].
  unfold bind. rewrite get_weapons_round_eq.
  edestruct (collect_run "Weapon class (e.g., weapon_pistol)"
               "Add another weapon? (y/n)" "weapon_pistol" ls es Hs [])
    as (w' & -> & Hrest & Hjobs); [exact Hin|].
  exists w'. split; [|done]. cbn [app].
  destruct es as [|e1 es]; done.
Qed.

Lemma get_weapons_input_returns w r w' :
  get_weapons_input w = (Ret r, w') ->
  exists ls es, entry_script ls es /\ stdin w = ls ++ stdin w'.
Proof.
  unfold get_weapons_input. unfold bind at 1. cbn [print].
  intros (weapons & w1 & E & Hr)%bind_Ret.
  rewrite get_weapons_round_eq in E.
  apply (collect_returns _ _ _ (S (length (stdin w)))) in E
    as (ls & es & Hs & Hin & _); [|cbn; lia].
  exists ls, es. split; [done|]. cbn in Hin. rewrite Hin.
  by injection Hr as _ <-.
Qed.

Lemma get_models_input_total : total get_models_input.
Proof.
  unfold get_models_input. apply bind_total; [auto with total|]. intros _.
  apply bind_total.
  - rewrite get_models_round_eq. apply collect_loop_total.
  - intros [|m [|m' ms]]; auto with total.
Qed.

Lemma get_weapons_input_total : total get_weapons_input.
Proof.
  unfold get_weapons_input. apply bind_total; [auto with total|]. intros _.
  apply bind_total; [|auto with total].
  rewrite get_weapons_round_eq. apply collect_loop_total.
Qed.
#[export] Hint Resolve get_models_input_total get_weapons_input_total : total.

(** ** [get_spawn_settings] *)

Lemma get_user_input_default_Ret prompt d required w v w' :
  get_user_input prompt (Some d) required w = (Ret v, w') ->
  exists l rest,
    stdin w = l :: rest /\ v = Some (answer_or d l)
    /\ w' = after_input (prompt_text prompt (Some d)) rest w.
Proof.
  destruct (stdin w) as [|l rest] eqn:H.
  - by rewrite get_user_input_eof.
  - rewrite (get_user_input_default _ _ _ w l rest H).
    intros [= <- <-]. eauto.
Qed.

Lemma int_of_Ret v z w w' :
  int_of v w = (Ret z, w') ->
  w' = w /\ exists s, v = Some s /\ Py.int s = Some z.
Proof.
  destruct v as [s|]; [|done]. cbn.
  destruct (Py.int s) as [z'|] eqn:E; [|done].
  intros [= <- <-]. eauto.
Qed.

(** A prompt for a number that has a default: what [int(get_user_input(..))]
    returns, and where it leaves the script. *)
Lemma int_prompt_Ret {B} prompt d (k : Z -> M B) w b w' :
  (v <- get_user_input prompt (Some d) true ;; z <- int_of v ;; k z) w = (Ret b, w') ->
  exists l rest z,
    stdin w = l :: rest /\ Py.int (answer_or d l) = Some z
    /\ k z (after_input (prompt_text prompt (Some d)) rest w) = (Ret b, w').
Proof.
  intros (v & w1 & E1 & E)%bind_Ret.
  apply get_user_input_default_Ret in E1 as (l & rest & Hin & -> & ->).
  apply bind_Ret in E as (z & w2 & Ez & E).
  apply int_of_Ret in Ez as (-> & s & [= <-] & Hz).
  eauto 10.
Qed.

Lemma get_spawn_settings_total : total get_spawn_settings.
Proof.
  unfold get_spawn_settings.
  repeat (apply bind_total; [auto with total|intros ?]).
  auto with total.
Qed.
#[export] Hint Resolve get_spawn_settings_total : total.

(** ** The rendered block *)

Lemma str_app_assoc (a b c : string) : (a +:+ b) +:+ c = a +:+ (b +:+ c).
Proof.
  induction a as [|x a IH]; [done|].
  change (String x ((a +:+ b) +:+ c) = String x (a +:+ (b +:+ c))).
  by rewrite IH.
Qed.

(** [contains needle s]: [needle] is a substring of [s]. *)
Definition contains (needle s : string) : Prop :=
  exists pre post, s = pre +:+ needle +:+ post.

Lemma contains_skip needle a s : contains needle s -> contains needle (a +:+ s).
Proof.
  intros (pre & post & ->). exists (a +:+ pre), post.
  by rewrite str_app_assoc.
Qed.

Lemma contains_here needle post : contains needle (needle +:+ post).
Proof. by exists EmptyString, post. Qed.

(** Whatever the values formatted into it, the block holds the line
    that sets [admin] to 0. *)
Lemma job_template_admin team_name job_name color models description weapons
    command max_players salary vote_required has_license can_demote spawn_settings :
  contains (Py.nl +:+ "    admin = 0," +:+ Py.nl)
    (job_template team_name job_name color models description weapons command
       max_players salary vote_required has_license can_demote spawn_settings).
Proof.
  unfold job_template.
  repeat lazymatch goal with
         | |- contains _ (Py.nl +:+ "    admin = 0," +:+ _) => fail
         | |- contains _ (_ +:+ _) => apply contains_skip
         end.
  eexists EmptyString, _. rewrite !str_app_assoc. reflexivity.
Qed.

(** ** [create_job] *)

Lemma get_color_input_total : total get_color_input.
Proof.
  unfold get_color_input.
  repeat (apply bind_total; [auto with total|intros ?]).
  auto with total.
Qed.
#[export] Hint Resolve get_color_input_total : total.

Lemma append_job_total j : total (append_job j).
Proof. done. Qed.
#[export] Hint Resolve append_job_total : total.

(** [create_job] is never cut short by the model's fuel: on every script
    it returns or raises. *)
Lemma create_job_total : total create_job.
Proof.
  unfold create_job.
  repeat (apply bind_total; [auto with total|intros ?]).
  auto with total.
Qed.

(** What [create_job] returns is the template over some values, and the
    same text is the [code] of the record it appends last. *)
Lemma create_job_Ret w code w' :
  create_job w = (Ret code, w') ->
  exists team_name job_name color models description weapons command
         max_players salary vote_required has_license can_demote spawn_settings js,
    code = job_template team_name job_name color models description weapons
             command max_players salary vote_required has_license can_demote
             spawn_settings
    /\ jobs w' = js ++ [mkJob team_name job_name code].
Proof.
  intros E. unfold create_job in E.
  repeat lazymatch type of E with
         | bind (append_job _) _ _ = _ => fail
         | bind _ _ _ = _ =>
             apply bind_Ret in E as (? & ? & _ & E); cbv beta zeta in E
         end.
  apply bind_Ret in E as ([] & w1 & E1 & E).
  injection E1 as <-. injection E as <- <-.
  do 14 eexists. split; [reflexivity|]. cbn. reflexivity.
Qed.

(** The script of the end-to-end example: a blank line takes the
    prompt's default. *)
Definition example_script : list string :=
  ["TEAM_TEST"; "Tester";
   ""; ""; ""; "";
   "";
   "models/player/urban.mdl"; "n";
   "weapon_pistol"; "n";
   "";
   "2"; "50"; "y"; "n"; "n";
   ""; ""; ""; ""; ""; ""; ""].

Definition example_block : string :=
  Py.join Py.nl
    ["TEAM_TEST = DarkRP.createJob(" +:+ Py.dq +:+ "Tester" +:+ Py.dq +:+ ", {";
     "    color = Color(50, 50, 255, 255),";
     "    model = " +:+ Py.dq +:+ "models/player/urban.mdl" +:+ Py.dq +:+ ",";
     "    description = [[A custom DarkRP job]],";
     "    weapons = {" +:+ Py.dq +:+ "weapon_pistol" +:+ Py.dq +:+ "},";
     "    command = " +:+ Py.dq +:+ "tester" +:+ Py.dq +:+ ",";
     "    max = 2,";
     "    salary = 50,";
     "    admin = 0,";
     "    vote = false,";
     "    hasLicense = true,";
     "    candemote = false,";
     "";
     "    PlayerSpawn = function(ply)";
     "        ply:SetHealth(100)";
     "        ply:SetMaxHealth(100)";
     "        ply:SetArmor(0)";
     "        ply:SetMaxArmor(0)";
     "        ply:SetWalkSpeed(200)";
     "        ply:SetRunSpeed(400)";
     "        ply:SetJumpPower(200)";
     "    end";
     "})"].

(** The example script with a word where the number of players is asked. *)
Definition typo_script : list string :=
  ["TEAM_TEST"; "Tester";
   ""; ""; ""; "";
   "";
   "models/player/urban.mdl"; "n";
   "weapon_pistol"; "n";
   "";
   "two"; "50"; "y"; "n"; "n";
   ""; ""; ""; ""; ""; ""; ""].

(** ** [save_jobs] *)

(** The name of the file a save at time [t] writes. *)
Definition save_file_name (t : datetime) : string :=
  "darkrp_jobs_" +:+ strftime_compact t +:+ ".lua".

(** The two header lines and the empty line after them. *)
Definition save_header (t : datetime) : string :=
  ("-- DarkRP Jobs generated with Python Script" +:+ Py.nl)
  +:+ ("-- Created on: " +:+ strftime_human t +:+ Py.nl +:+ Py.nl).

(** Each record's code followed by an empty line, in list order. *)
Fixpoint save_body (js : list Job) : string :=
  match js with
  | [] => EmptyString
  | j :: rest => (code j +:+ (Py.nl +:+ Py.nl)) +:+ save_body rest
  end.

(** The clock readings a calendar can show, from the year 1000 on (the
    years that [%Y] prints in four digits on every platform). *)
Definition valid_datetime (t : datetime) : Prop :=
  (1000 <= year t <= 9999 /\ 1 <= month t <= 12 /\ 1 <= day t <= 31
   /\ 0 <= hour t <= 23 /\ 0 <= minute t <= 59 /\ 0 <= second t <= 59)%Z.

Definition is_digit (c : ascii) : bool :=
  let n := N_of_ascii c in ((48 <=? n) && (n <=? 57))%N.

(** [take_digits n s] drops [n] decimal digits from the front of [s]. *)
Fixpoint take_digits (n : nat) (s : string) : option string :=
  match n with
  | O => Some s
  | S k =>
      match s with
      | String c r => if is_digit c then take_digits k r else None
      | EmptyString => None
      end
  end.

(** [take_prefix p s] drops the text [p] from the front of [s]. *)
Fixpoint take_prefix (p s : string) : option string :=
  match p with
  | EmptyString => Some s
  | String c p' =>
      match s with
      | String c' s' => if Ascii.eqb c c' then take_prefix p' s' else None
      | EmptyString => None
      end
  end.

(** A pattern is a list of pieces: a fixed text, or a number of digits. *)
Inductive piece := Lit (s : string) | Digits (n : nat).

Fixpoint matches (pattern : list piece) (s : string) : bool :=
  match pattern with
  | [] => String.eqb s EmptyString
  | Lit p :: rest =>
      match take_prefix p s with Some s' => matches rest s' | None => false end
  | Digits n :: rest =>
      match take_digits n s with Some s' => matches rest s' | None => false end
  end.

(** [darkrp_jobs_<YYYYMMDD>_<HHMMSS>.lua] *)
Definition file_name_pattern : list piece :=
  [Lit "darkrp_jobs_"; Digits 4; Digits 2; Digits 2; Lit "_";
   Digits 2; Digits 2; Digits 2; Lit ".lua"].

(** [DD.MM.YYYY HH:MM:SS] *)
Definition stamp_pattern : list piece :=
  [Digits 2; Lit "."; Digits 2; Lit "."; Digits 4; Lit " ";
   Digits 2; Lit ":"; Digits 2; Lit ":"; Digits 2].

(** A text of exactly [n] digits. *)
Definition digits (n : nat) (s : string) : bool :=
  match take_digits n s with Some EmptyString => true | _ => false end.

Lemma take_prefix_app p s : take_prefix p (p +:+ s) = Some s.
Proof.
  induction p as [|c p IH]; [done|].
  change (String c p +:+ s) with (String c (p +:+ s)). cbn.
  by rewrite Ascii.eqb_refl.
Qed.

Lemma take_digits_app n a s :
  digits n a = true -> take_digits n (a +:+ s) = Some s.
Proof.
  unfold digits. revert a. induction n as [|n IH]; intros a.
  - by destruct a.
  - destruct a as [|c a]; [done|].
    change (String c a +:+ s) with (String c (a +:+ s)).
    cbn [take_digits]. destruct (is_digit c); [apply IH|done].
Qed.

Lemma matches_lit p rest s : matches (Lit p :: rest) (p +:+ s) = matches rest s.
Proof. cbn. by rewrite take_prefix_app. Qed.

Lemma matches_digits n rest a s :
  digits n a = true -> matches (Digits n :: rest) (a +:+ s) = matches rest s.
Proof. intros H. cbn. by rewrite take_digits_app. Qed.

Lemma matches_last_digits n a : digits n a = true -> matches [Digits n] a = true.
Proof.
  unfold digits. cbn. destruct (take_digits n a) as [[|]|]; done.
Qed.

Lemma below_forallb (P : Z -> bool) (n : Z) :
  forallb P (map Z.of_nat (seq 0 (Z.to_nat n))) = true ->
  forall z, (0 <= z < n)%Z -> P z = true.
Proof.
  intros H z Hz. rewrite forallb_forall in H. apply H.
  rewrite <- (Z2Nat.id z) by lia. apply in_map, in_seq. lia.
Qed.

Lemma zero_pad_2 z : (0 <= z <= 99)%Z -> digits 2 (Py.zero_pad 2 z) = true.
Proof.
  intros H. apply (below_forallb (fun z => digits 2 (Py.zero_pad 2 z)) 100);
    [by vm_compute|lia].
Qed.

Lemma zero_pad_4 z : (0 <= z <= 9999)%Z -> digits 4 (Py.zero_pad 4 z) = true.
Proof.
  intros H. apply (below_forallb (fun z => digits 4 (Py.zero_pad 4 z)) 10000);
    [by vm_compute|lia].
Qed.

Lemma save_file_name_matches t :
  valid_datetime t -> matches file_name_pattern (save_file_name t) = true.
Proof.
  intros (Hy & Hm & Hd & Hh & Hmi & Hs).
  unfold save_file_name, strftime_compact, file_name_pattern.
  rewrite matches_lit. rewrite !str_app_assoc.
  rewrite matches_digits by (apply zero_pad_4; lia).
  rewrite !matches_digits by (apply zero_pad_2; lia).
  rewrite matches_lit.
  rewrite !matches_digits by (apply zero_pad_2; lia).
  by vm_compute.
Qed.

Lemma strftime_human_matches t :
  valid_datetime t -> matches stamp_pattern (strftime_human t) = true.
Proof.
  intros (Hy & Hm & Hd & Hh & Hmi & Hs).
  unfold strftime_human, stamp_pattern.
  rewrite matches_digits by (apply zero_pad_2; lia). rewrite matches_lit.
  rewrite matches_digits by (apply zero_pad_2; lia). rewrite matches_lit.
  rewrite matches_digits by (apply zero_pad_4; lia). rewrite matches_lit.
  rewrite matches_digits by (apply zero_pad_2; lia). rewrite matches_lit.
  rewrite matches_digits by (apply zero_pad_2; lia). rewrite matches_lit.
  apply matches_last_digits, zero_pad_2. lia.
Qed.

(** Two worlds that differ at most in the files and the log of file
    operations. *)
Definition same_but_files (w w' : World) : Prop :=
  jobs w' = jobs w /\ stdin w' = stdin w /\ stdout w' = stdout w
  /\ clock w' = clock w /\ ticks w' = ticks w.

Lemma str_app_nil_r (s : string) : s +:+ EmptyString = s.
Proof.
  induction s as [|c s IH]; [done|].
  change (String c (s +:+ EmptyString) = String c s). by rewrite IH.
Qed.

(** The loop of [save_jobs] appends the body to the open file. *)
Lemma write_jobs_run name js : forall w c,
  files w !! name = Some c ->
  exists w',
    for_each js (fun job => write name (code job) ;;; write name (Py.nl +:+ Py.nl)) w
    = (Ret tt, w')
    /\ files w' = <[name := c +:+ save_body js]> (files w)
    /\ same_but_files w w'.
Proof.
  induction js as [|j js IH]; intros w c Hc.
  - exists w. cbn. rewrite str_app_nil_r, insert_id by done. done.
  - cbn [for_each]. unfold bind at 1. unfold bind at 1. cbn [write].
    unfold bind at 1. cbn [write files set_files].
    rewrite Hc, lookup_insert_eq. cbn [default].
    edestruct IH as (w' & -> & Hf & Hsame); [cbn; apply lookup_insert_eq|].
    exists w'. split; [done|]. split; [|exact Hsame].
    rewrite Hf. cbn [files set_files save_body].
    rewrite !insert_insert_eq. by rewrite !str_app_assoc.
Qed.

(** What a save does when there is a job: one new file under the name
    of the first clock reading, holding the header of the second
    reading and then the body; the jobs are as they were. *)
Lemma save_jobs_run w :
  jobs w <> [] ->
  exists w',
    save_jobs w = (Ret tt, w')
    /\ files w' = <[save_file_name (clock w (ticks w)) :=
                      save_header (clock w (S (ticks w))) +:+ save_body (jobs w)]>
                    (files w)
    /\ jobs w' = jobs w /\ stdin w' = stdin w
    /\ clock w' = clock w /\ ticks w' = S (S (ticks w)).
Proof.
  intros Hj. unfold save_jobs. unfold bind at 1. cbn [get_jobs].
  rewrite bool_decide_eq_false_2 by done.
  unfold bind at 1. cbn [now]. unfold bind at 1. cbn [open_w].
  unfold bind at 1. cbn [write]. unfold bind at 1. cbn [now].
  unfold bind at 1. cbn [write]. unfold bind at 1. cbn [get_jobs].
  unfold bind at 1.
  fold (save_file_name (clock w (ticks w))).
  set (name := save_file_name (clock w (ticks w))).
  cbn [files set_files set_ticks jobs clock ticks].
  rewrite !lookup_insert_eq. cbn [default].
  match goal with
  | |- context [for_each _ _ ?w0] =>
      destruct (write_jobs_run name (jobs w) w0
                  (save_header (clock w (S (ticks w)))))
        as (w' & -> & Hf & Hj' & Hin & Hout & Hc & Ht)
  end.
  { cbn. rewrite lookup_insert_eq. done. }
  unfold bind. cbn [close print].
  eexists. split; [reflexivity|]. cbn.
  rewrite Hf, Hj', Hin, Hc, Ht. cbn.
  rewrite !insert_insert_eq. done.
Qed.

Lemma save_jobs_empty w :
  jobs w = [] ->
  save_jobs w = (Ret tt, set_stdout (stdout w ++ ["No jobs to save!" +:+ Py.nl]) w).
Proof.
  intros Hj. unfold save_jobs. unfold bind at 1. cbn [get_jobs].
  by rewrite bool_decide_eq_true_2.
Qed.

(** ** The whole program never runs out of fuel *)

(** A program that puts no line back on the script. *)
Definition shrinks {A} (m : M A) : Prop :=
  forall w r w', m w = (r, w') -> length (stdin w') <= length (stdin w).

(** A program that has read at least one line whenever it returns. *)
Definition reads {A} (m : M A) : Prop :=
  forall w a w', m w = (Ret a, w') -> length (stdin w') < length (stdin w).

Lemma bind_shrinks {A B} (m : M A) (k : A -> M B) :
  shrinks m -> (forall a, shrinks (k a)) -> shrinks (x <- m ;; k x).
Proof.
  intros Hm Hk w r w'. unfold bind.
  destruct (m w) as [[a|e|] w1] eqn:E; intros H.
  - apply Hm in E. apply Hk in H. lia.
  - injection H as <- <-. by apply Hm in E.
  - injection H as <- <-. by apply Hm in E.
Qed.

Lemma bind_reads_l {A B} (m : M A) (k : A -> M B) :
  reads m -> (forall a, shrinks (k a)) -> reads (x <- m ;; k x).
Proof.
  intros Hm Hk w b w' (a & w1 & E & H)%bind_Ret.
  apply Hm in E. apply Hk in H. lia.
Qed.

Lemma bind_reads_r {A B} (m : M A) (k : A -> M B) :
  shrinks m -> (forall a, reads (k a)) -> reads (x <- m ;; k x).
Proof.
  intros Hm Hk w b w' (a & w1 & E & H)%bind_Ret.
  apply Hm in E. apply Hk in H. lia.
Qed.

Lemma try_except_shrinks {A} (body handler : M A) e :
  shrinks body -> shrinks handler -> shrinks (try_except body e handler).
Proof.
  intros Hb Hh w r w'. unfold try_except.
  destruct (body w) as [[a|e'|] w1] eqn:E.
  - intros [= <- <-]. by apply Hb in E.
  - destruct (decide (e' = e)).
    + intros H. apply Hb in E. apply Hh in H. lia.
    + intros [= <- <-]. by apply Hb in E.
  - intros [= <- <-]. by apply Hb in E.
Qed.

Lemma if_shrinks {A} (b : bool) (m1 m2 : M A) :
  shrinks m1 -> shrinks m2 -> shrinks (if b then m1 else m2).
Proof. by destruct b. Qed.

Lemma loop_shrinks {S A} (body : S -> M (S + A)) n s :
  (forall s, shrinks (body s)) -> shrinks (loop n body s).
Proof.
  intros Hb. revert s. induction n as [|n IH]; intros s.
  - by intros w r w' [= <- <-].
  - cbn [loop]. apply bind_shrinks; [done|].
    intros [s'|a]; [apply IH|]. by intros w r w' [= <- <-].
Qed.

Lemma while_true_shrinks {S A} (body : S -> M (S + A)) s :
  (forall s, shrinks (body s)) -> shrinks (while_true body s).
Proof. intros Hb w. by apply loop_shrinks. Qed.

Lemma while_true_reads {S A} (body : S -> M (S + A)) s :
  (forall s, shrinks (body s)) -> (forall s, reads (body s)) ->
  reads (while_true body s).
Proof.
  intros Hs Hr w. unfold while_true. cbn [loop].
  apply bind_reads_l; [done|].
  intros [s'|a]; [by apply loop_shrinks|]. by intros w0 r w' [= <- <-].
Qed.

Lemma ret_shrinks {A} (a : A) : shrinks (ret a).
Proof. by intros w r w' [= <- <-]. Qed.

Lemma raise_shrinks {A} e : shrinks (@raise A e).
Proof. by intros w r w' [= <- <-]. Qed.

Lemma print_shrinks s : shrinks (print s).
Proof. by intros w r w' [= <- <-]. Qed.

Lemma now_shrinks : shrinks now.
Proof. by intros w r w' [= <- <-]. Qed.

Lemma open_w_shrinks name : shrinks (open_w name).
Proof. by intros w r w' [= <- <-]. Qed.

Lemma write_shrinks name data : shrinks (write name data).
Proof. by intros w r w' [= <- <-]. Qed.

Lemma close_shrinks name : shrinks (close name).
Proof. by intros w r w' [= <- <-]. Qed.

Lemma get_jobs_shrinks : shrinks get_jobs.
Proof. by intros w r w' [= <- <-]. Qed.

Lemma append_job_shrinks j : shrinks (append_job j).
Proof. by intros w r w' [= <- <-]. Qed.

Lemma input_shrinks p : shrinks (input p).
Proof.
  intros w r w'. unfold input.
  destruct (stdin w) as [|l rest] eqn:E; intros [= <- <-]; cbn; rewrite ?E; cbn; lia.
Qed.

Lemma input_reads p : reads (input p).
Proof.
  intros w r w'. unfold input.
  destruct (stdin w) as [|l rest] eqn:E; [done|]. intros [= <- <-]. cbn. lia.
Qed.

Lemma int_of_shrinks v : shrinks (int_of v).
Proof.
  destruct v as [s|]; [|apply raise_shrinks]. cbn.
  destruct (Py.int s); [apply ret_shrinks|apply raise_shrinks].
Qed.

Lemma str_of_shrinks v : shrinks (str_of v).
Proof. destruct v; [apply ret_shrinks|apply raise_shrinks]. Qed.

Create HintDb shrinks discriminated.
#[export] Hint Resolve ret_shrinks raise_shrinks print_shrinks now_shrinks
  open_w_shrinks write_shrinks close_shrinks get_jobs_shrinks append_job_shrinks
  input_shrinks int_of_shrinks str_of_shrinks : shrinks.
#[export] Hint Extern 2 (shrinks (bind _ _)) => apply bind_shrinks; [|intros ?] : shrinks.
#[export] Hint Extern 2 (shrinks (try_except _ _ _)) => apply try_except_shrinks : shrinks.
#[export] Hint Extern 3 (shrinks (if _ then _ else _)) => apply if_shrinks : shrinks.
#[export] Hint Extern 2 (shrinks (while_true _ _)) => apply while_true_shrinks; intros ? : shrinks.

Lemma is_y_shrinks v : shrinks (is_y v).
Proof. unfold is_y. auto with shrinks. Qed.
#[export] Hint Resolve is_y_shrinks : shrinks.

Lemma get_user_input_shrinks p d r : shrinks (get_user_input p d r).
Proof. unfold get_user_input. auto 10 with shrinks. Qed.
#[export] Hint Resolve get_user_input_shrinks : shrinks.

Lemma get_user_input_reads p d r : reads (get_user_input p d r).
Proof.
  unfold get_user_input. apply while_true_reads; intros [].
  - auto 10 with shrinks.
  - apply bind_reads_l; [apply input_reads|]. intros l. auto 10 with shrinks.
Qed.

Lemma get_validated_int_shrinks p lo hi d : shrinks (get_validated_int p lo hi d).
Proof. unfold get_validated_int, get_validated_int_round. auto 10 with shrinks. Qed.
#[export] Hint Resolve get_validated_int_shrinks : shrinks.

Lemma get_color_input_shrinks : shrinks get_color_input.
Proof. unfold get_color_input. auto 10 with shrinks. Qed.

Lemma get_models_input_shrinks : shrinks get_models_input.
Proof.
  unfold get_models_input, get_models_round.
  apply bind_shrinks; [auto with shrinks|]. intros _.
  apply bind_shrinks; [auto 10 with shrinks|].
  intros [|m [|m' ms]]; auto with shrinks.
Qed.

Lemma get_weapons_input_shrinks : shrinks get_weapons_input.
Proof. unfold get_weapons_input, get_weapons_round. auto 10 with shrinks. Qed.

Lemma get_spawn_settings_shrinks : shrinks get_spawn_settings.
Proof. unfold get_spawn_settings. auto 20 with shrinks. Qed.
#[export] Hint Resolve get_color_input_shrinks get_models_input_shrinks
  get_weapons_input_shrinks get_spawn_settings_shrinks : shrinks.

Lemma create_job_shrinks : shrinks create_job.
Proof.
  unfold create_job.
  repeat (apply bind_shrinks; [auto with shrinks|intros ?]).
  auto with shrinks.
Qed.

Lemma for_each_shrinks {A} (l : list A) (body : A -> M unit) :
  (forall a, shrinks (body a)) -> shrinks (for_each l body).
Proof. intros Hb. induction l; cbn [for_each]; auto with shrinks. Qed.

Lemma get_jobs_total : total get_jobs.
Proof. done. Qed.

Lemma now_total : total now.
Proof. done. Qed.

Lemma open_w_total name : total (open_w name).
Proof. done. Qed.

Lemma write_total name data : total (write name data).
Proof. done. Qed.

Lemma close_total name : total (close name).
Proof. done. Qed.
#[export] Hint Resolve get_jobs_total now_total open_w_total write_total
  close_total : total.

Lemma for_each_total {A} (l : list A) (body : A -> M unit) :
  (forall a, total (body a)) -> total (for_each l body).
Proof. intros Hb. induction l; cbn [for_each]; auto with total. Qed.

Lemma save_jobs_shrinks : shrinks save_jobs.
Proof.
  unfold save_jobs.
  repeat first [apply for_each_shrinks; intros ?
               | apply bind_shrinks; [|intros ?]
               | apply if_shrinks
               | solve [auto with shrinks]].
Qed.

Lemma save_jobs_total : total save_jobs.
Proof.
  unfold save_jobs.
  repeat first [apply for_each_total; intros ?
               | apply bind_total; [|intros ?]
               | apply if_total
               | solve [auto with total]].
Qed.

Lemma print_jobs_shrinks l : forall i, shrinks (print_jobs i l).
Proof. induction l; intros i; cbn [print_jobs]; auto with shrinks. Qed.

Lemma print_jobs_total l : forall i, total (print_jobs i l).
Proof. induction l; intros i; cbn [print_jobs]; auto with total. Qed.

#[export] Hint Resolve create_job_shrinks save_jobs_shrinks print_jobs_shrinks : shrinks.
#[export] Hint Resolve create_job_total save_jobs_total print_jobs_total : total.

Lemma show_menu_round_shrinks u : shrinks (show_menu_round u).
Proof. unfold show_menu_round, print_generated. auto 30 with shrinks. Qed.

Lemma show_menu_round_reads u : reads (show_menu_round u).
Proof.
  unfold show_menu_round.
  do 8 (apply bind_reads_r; [auto with shrinks|intros _]).
  apply bind_reads_l; [apply get_user_input_reads|].
  intros choice. unfold print_generated. auto 30 with shrinks.
Qed.

Lemma show_menu_total : total show_menu.
Proof.
  apply while_true_total.
  - intros [] w [] w' E. by apply show_menu_round_reads in E.
  - intros []. unfold show_menu_round, print_generated. auto 30 with total.
Qed.

(** On every script the program returns or raises: the fuel of the
    model's loops is never what stops it. *)
Lemma main_total : total main.
Proof.
  pose proof show_menu_total. unfold main, print_generated.
  auto 30 with total.
Qed.

(** * The properties of the specification *)

(** C1 (the code departs from the specification): every prompt for a
    number is specified to answer a response that is no number by asking
    again, with no exception reaching the caller.  [create_job] reads the
    number of players with a bare [int(...)]: on the example script with
    the word [two] at that prompt it raises [ValueError], appends no job,
    and leaves the rest of the script unread.  The colour channels, read
    through [get_validated_int], do ask again ([get_validated_int_run],
    [get_validated_int_sound], [get_validated_int_asks_again]). *)
Theorem C1_unvalidated_prompt_raises (clk : nat -> datetime) :
  fst (create_job (initial_world typo_script clk)) = Raise ValueError
  /\ jobs (snd (create_job (initial_world typo_script clk))) = []
  /\ stdin (snd (create_job (initial_world typo_script clk)))
     = ["50"; "y"; "n"; "n"; ""; ""; ""; ""; ""; ""; ""].
Proof. vm_compute. done. Qed.

(** C2, as stated, fails: read as "the lines up to the first blank one
    are the entries", it is refuted by a script whose first path is
    followed by the reply [n]: the loop stops there, and the next two
    lines stay unread. *)
Lemma C2_stops_without_blank_path :
  ~ (forall w r w', get_models_input w = (Ret r, w') ->
       exists es, until_blank (stdin w) = Some (es, stdin w')).
Proof.
  intros H.
  pose (w := initial_world ["models/a.mdl"; "n"; "models/b.mdl"; ""] sample_clock).
  destruct (H w (quoted "models/a.mdl") (snd (get_models_input w))) as [es Hes].
  - vm_compute. reflexivity.
  - vm_compute in Hes. discriminate Hes.
Qed.

(** C2, amended: each collection loop returns exactly on the scripts
    that [entry_script] describes, and reads exactly those lines: it
    stops at a blank path, or when the reply to the question after an
    entry (default [n]) is not [y]; after the reply [y] it asks for the
    next entry. *)
Theorem C2_collection_loops_stop (w : World) (rest : list string) :
  ((exists r w', get_models_input w = (Ret r, w') /\ stdin w' = rest)
   <-> (exists ls es, entry_script ls es /\ stdin w = ls ++ rest))
  /\ ((exists r w', get_weapons_input w = (Ret r, w') /\ stdin w' = rest)
      <-> (exists ls es, entry_script ls es /\ stdin w = ls ++ rest)).
Proof.
  split; split.
  - intros (r & w' & E & <-).
    by apply get_models_input_returns in E.
  - intros (ls & es & Hs & Hin).
    destruct (get_models_input_run ls es w rest Hs Hin) as (w' & E & Hrest & _).
    eauto.
  - intros (r & w' & E & <-).
    by apply get_weapons_input_returns in E.
  - intros (ls & es & Hs & Hin).
    destruct (get_weapons_input_run ls es w rest Hs Hin) as (w' & E & Hrest & _).
    eauto.
Qed.

(** C3: the model literal depends on the number of entries the user
    gave: none, the quoted default path; one, that entry quoted, without
    braces; two or more, the quoted entries in entry order, separated by
    a comma and a space, in braces. *)
Theorem C3_model_rendering (ls es : list string) (w : World) (rest : list string) :
  entry_script ls es -> stdin w = ls ++ rest ->
  exists w',
    get_models_input w =
    (Ret match es with
         | [] => Py.dq +:+ "models/player/urban.mdl" +:+ Py.dq
         | [e] => Py.dq +:+ e +:+ Py.dq
         | _ => "{" +:+ Py.join ", " (map (fun e => Py.dq +:+ e +:+ Py.dq) es) +:+ "}"
         end, w')
    /\ stdin w' = rest.
Proof.
  intros Hs Hin.
  destruct (get_models_input_run ls es w rest Hs Hin) as (w' & E & Hrest & _).
  eauto.
Qed.

Lemma C3_model_rendering_witness :
  exists w',
    get_models_input
      (initial_world ["models/a.mdl"; "y"; " models/b.mdl "; "n"; "left"] sample_clock) =
    (Ret ("{" +:+ Py.dq +:+ "models/a.mdl" +:+ Py.dq +:+ ", "
          +:+ Py.dq +:+ "models/b.mdl" +:+ Py.dq +:+ "}"), w')
    /\ stdin w' = ["left"].
Proof.
  apply (C3_model_rendering ["models/a.mdl"; "y"; " models/b.mdl "; "n"]
           ["models/a.mdl"; "models/b.mdl"]).
  - apply (entry_more "models/a.mdl" "y" [" models/b.mdl "; "n"] ["models/b.mdl"]);
      [by vm_compute|by vm_compute|].
    apply (entry_last " models/b.mdl " "n"); by vm_compute.
  - reflexivity.
Defined.

(** C4: the weapon literal is always in braces, also for one entry, and
    it lists the built-in default weapon exactly when the user gave no
    entry, and the user's entries otherwise. *)
Theorem C4_weapon_rendering (ls es : list string) (w : World) (rest : list string) :
  entry_script ls es -> stdin w = ls ++ rest ->
  exists w',
    get_weapons_input w =
    (Ret ("{" +:+ Py.join ", " (map (fun e => Py.dq +:+ e +:+ Py.dq)
                                    (if bool_decide (es = [])
                                     then ["weapon_pistol"] else es))
          +:+ "}"), w')
    /\ stdin w' = rest.
Proof.
  intros Hs Hin.
  destruct (get_weapons_input_run ls es w rest Hs Hin) as (w' & E & Hrest & _).
  eauto.
Qed.

Lemma C4_weapon_rendering_witness :
  exists w',
    get_weapons_input (initial_world ["weapon_ar2"; ""; "left"] sample_clock) =
    (Ret ("{" +:+ Py.dq +:+ "weapon_ar2" +:+ Py.dq +:+ "}"), w')
    /\ stdin w' = ["left"].
Proof.
  apply (C4_weapon_rendering ["weapon_ar2"; ""] ["weapon_ar2"]).
  - apply (entry_last "weapon_ar2" ""); by vm_compute.
  - reflexivity.
Defined.

(** C5: when [get_spawn_settings] returns, the recorded [max_armor] is
    the recorded [armor] if the response to the fourth prompt (the
    maximum armor) is blank, and otherwise the number that response
    parses to, whatever the armor is. *)
Theorem C5_max_armor (w w' : World) (s : SpawnSettings)
    (r1 r2 r3 r4 : string) (rest : list string) :
  stdin w = r1 :: r2 :: r3 :: r4 :: rest ->
  get_spawn_settings w = (Ret s, w') ->
  (blank r4 -> max_armor s = armor s)
  /\ (~ blank r4 -> Py.int r4 = Some (max_armor s)).
Proof.
  intros Hin E. unfold get_spawn_settings in E.
  unfold bind at 1 in E. cbn [print] in E.
  apply int_prompt_Ret in E as (l1 & t1 & health & H1 & _ & E).
  cbn in H1. rewrite Hin in H1. injection H1 as <- <-.
  apply int_prompt_Ret in E as (l2 & t2 & max_health & H2 & _ & E).
  cbn in H2. injection H2 as <- <-.
  apply int_prompt_Ret in E as (l3 & t3 & armor0 & H3 & _ & E).
  cbn in H3. injection H3 as <- <-.
  apply bind_Ret in E as (v & w4 & E4 & E).
  rewrite (get_user_input_default _ _ _ _ r4 rest) in E4 by reflexivity.
  injection E4 as <- <-.
  apply bind_Ret in E as (max_armor0 & w5 & Em & E).
  apply int_prompt_Ret in E as (l5 & t5 & walk & _ & _ & E).
  apply int_prompt_Ret in E as (l6 & t6 & run & _ & _ & E).
  apply int_prompt_Ret in E as (l7 & t7 & jump & _ & _ & E).
  injection E as <- _. cbn [max_armor armor].
  unfold answer_or, blank in *.
  destruct (Py.truthy (Py.strip r4)) eqn:Hb.
  - cbn [Py.truthy_opt] in Em. rewrite Hb in Em.
    apply int_of_Ret in Em as (_ & s & [= <-] & Hs).
    split; [done|]. intros _. by rewrite <- int_strip.
  - cbn [Py.truthy_opt] in Em. rewrite str_truthy in Em.
    apply int_of_Ret in Em as (_ & s & [= <-] & Hs).
    rewrite int_str in Hs. injection Hs as <-.
    split; [done|]. intros Hn. by destruct Hn.
Qed.

(** An explicit [0] for the maximum armor is kept, with armor 25. *)
Lemma C5_max_armor_witness :
  (blank "0" -> 0 = 25)%Z /\ (~ blank "0" -> Py.int "0" = Some 0%Z).
Proof.
  apply (C5_max_armor
           (initial_world ["100"; ""; "25"; "0"; ""; ""; ""] sample_clock)
           (snd (get_spawn_settings
                   (initial_world ["100"; ""; "25"; "0"; ""; ""; ""] sample_clock)))
           (mkSpawn 100 100 25 0 200 400 200)
           "100" "" "25" "0" [""; ""; ""]).
  - reflexivity.
  - vm_compute. reflexivity.
Defined.

(** C6: on the example script (team TEAM_TEST, job Tester, every default
    taken, one model, one weapon, 2 players, salary 50, license yes, vote
    no, demotion no) [create_job] returns the block written out in
    [example_block], and records it under the team and job name. *)
Theorem C6_end_to_end (clk : nat -> datetime) :
  fst (create_job (initial_world example_script clk)) = Ret example_block
  /\ jobs (snd (create_job (initial_world example_script clk)))
     = [mkJob "TEAM_TEST" (Some "Tester") example_block]
  /\ stdin (snd (create_job (initial_world example_script clk))) = [].
Proof. vm_compute. done. Qed.

(** C7: with a job in the session, [save_jobs] returns and leaves a file
    whose name has the form [darkrp_jobs_<8 digits>_<6 digits>.lua], made
    from the clock, and whose content is the attribution line, the line
    with the creation time in the form [DD.MM.YYYY HH:MM:SS], an empty
    line, and then each record's code followed by an empty line, in the
    order of the session. *)
Theorem C7_save_writes_file (w : World) :
  jobs w <> [] ->
  valid_datetime (clock w (ticks w)) ->
  valid_datetime (clock w (S (ticks w))) ->
  exists w',
    save_jobs w = (Ret tt, w')
    /\ files w' !! ("darkrp_jobs_" +:+ strftime_compact (clock w (ticks w)) +:+ ".lua")
       = Some (("-- DarkRP Jobs generated with Python Script" +:+ Py.nl)
               +:+ ("-- Created on: " +:+ strftime_human (clock w (S (ticks w)))
                    +:+ Py.nl +:+ Py.nl)
               +:+ save_body (jobs w))
    /\ matches file_name_pattern
         ("darkrp_jobs_" +:+ strftime_compact (clock w (ticks w)) +:+ ".lua") = true
    /\ matches stamp_pattern (strftime_human (clock w (S (ticks w)))) = true.
Proof.
  intros Hj Ht Ht'.
  destruct (save_jobs_run w Hj) as (w' & E & Hf & _).
  exists w'. split; [done|]. split.
  - rewrite Hf. apply lookup_insert_eq.
  - split; [by apply save_file_name_matches|by apply strftime_human_matches].
Qed.

(** A world with one saved-up job, at nine o'clock on 9 March 2024. *)
Definition one_job_world : World :=
  mkWorld [mkJob "TEAM_TEST" (Some "Tester") example_block] [] []
          (fun n => mkDatetime 2024 3 9 9 5 (Z.of_nat n)) 0 ∅ [].

Lemma C7_save_writes_file_witness :
  exists w',
    save_jobs one_job_world = (Ret tt, w')
    /\ files w' !! "darkrp_jobs_20240309_090500.lua"
       = Some (("-- DarkRP Jobs generated with Python Script" +:+ Py.nl)
               +:+ ("-- Created on: 09.03.2024 09:05:01" +:+ Py.nl +:+ Py.nl)
               +:+ (example_block +:+ Py.nl +:+ Py.nl))
    /\ matches file_name_pattern "darkrp_jobs_20240309_090500.lua" = true
    /\ matches stamp_pattern "09.03.2024 09:05:01" = true.
Proof.
  apply (C7_save_writes_file one_job_world).
  - discriminate.
  - vm_compute. intuition discriminate.
  - vm_compute. intuition discriminate.
Defined.

(** C8: with no job in the session, [save_jobs] returns after printing
    its notice, and nothing else happened: no file operation, no file
    changed, the clock not read, the session still empty. *)
Theorem C8_save_empty_is_noop (w : World) :
  jobs w = [] ->
  exists w',
    save_jobs w = (Ret tt, w')
    /\ stdout w' = stdout w ++ ["No jobs to save!" +:+ Py.nl]
    /\ fs_log w' = fs_log w /\ files w' = files w
    /\ ticks w' = ticks w /\ jobs w' = [] /\ stdin w' = stdin w.
Proof.
  intros Hj. rewrite (save_jobs_empty w Hj). eexists. split; [reflexivity|].
  cbn. by rewrite Hj.
Qed.

Lemma C8_save_empty_is_noop_witness :
  exists w',
    save_jobs (initial_world ["left"] sample_clock) = (Ret tt, w')
    /\ stdout w' = [] ++ ["No jobs to save!" +:+ Py.nl]
    /\ fs_log w' = [] /\ files w' = ∅
    /\ ticks w' = 0 /\ jobs w' = [] /\ stdin w' = ["left"].
Proof.
  apply (C8_save_empty_is_noop (initial_world ["left"] sample_clock)).
  reflexivity.
Defined.

(** C9: a save leaves the session as it was, so a second save right
    after the first writes the same body after its own header: the two
    contents differ in the creation time only, and the two files in
    their names.  When the two names differ (the clock moved on by a
    second or more), the first file is still there after the second
    save. *)
Theorem C9_save_twice (w : World) :
  jobs w <> [] ->
  exists w1 w2,
    save_jobs w = (Ret tt, w1) /\ save_jobs w1 = (Ret tt, w2)
    /\ jobs w1 = jobs w /\ jobs w2 = jobs w
    /\ files w1 !! save_file_name (clock w (ticks w))
       = Some (save_header (clock w (1 + ticks w)) +:+ save_body (jobs w))
    /\ files w2 !! save_file_name (clock w (2 + ticks w))
       = Some (save_header (clock w (3 + ticks w)) +:+ save_body (jobs w))
    /\ (save_file_name (clock w (ticks w)) <> save_file_name (clock w (2 + ticks w)) ->
        files w2 !! save_file_name (clock w (ticks w))
        = Some (save_header (clock w (1 + ticks w)) +:+ save_body (jobs w))).
Proof.
  intros Hj.
  destruct (save_jobs_run w Hj) as (w1 & E1 & Hf1 & Hj1 & _ & Hc1 & Ht1).
  assert (Hj' : jobs w1 <> []) by by rewrite Hj1.
  destruct (save_jobs_run w1 Hj') as (w2 & E2 & Hf2 & Hj2 & _ & _ & _).
  rewrite Hc1, Ht1, Hj1 in Hf2.
  exists w1, w2. repeat split; try done.
  - congruence.
  - rewrite Hf1. apply lookup_insert_eq.
  - rewrite Hf2. apply lookup_insert_eq.
  - intros Hne. rewrite Hf2, lookup_insert_ne by done.
    rewrite Hf1. apply lookup_insert_eq.
Qed.

Lemma C9_save_twice_witness :
  exists w1 w2,
    save_jobs one_job_world = (Ret tt, w1) /\ save_jobs w1 = (Ret tt, w2)
    /\ jobs w1 = jobs one_job_world /\ jobs w2 = jobs one_job_world
    /\ files w1 !! "darkrp_jobs_20240309_090500.lua"
       = Some (save_header (mkDatetime 2024 3 9 9 5 1) +:+ save_body (jobs one_job_world))
    /\ files w2 !! "darkrp_jobs_20240309_090502.lua"
       = Some (save_header (mkDatetime 2024 3 9 9 5 3) +:+ save_body (jobs one_job_world))
    /\ ("darkrp_jobs_20240309_090500.lua" <> "darkrp_jobs_20240309_090502.lua" ->
        files w2 !! "darkrp_jobs_20240309_090500.lua"
        = Some (save_header (mkDatetime 2024 3 9 9 5 1) +:+ save_body (jobs one_job_world))).
Proof.
  apply (C9_save_twice one_job_world). discriminate.
Defined.

(** C10: whatever the user answers, the block [create_job] returns, which
    is also the code of the record it appends, holds the line
    [admin = 0,]: the template writes it as a constant. *)
Theorem C10_admin_is_constant (w w' : World) (block : string) :
  create_job w = (Ret block, w') ->
  contains (Py.nl +:+ "    admin = 0," +:+ Py.nl) block
  /\ exists js j, jobs w' = js ++ [j] /\ code j = block.
Proof.
  intros (tn & jn & c & m & d & wp & cmd & mp & sal & v & l & dm & sp & js & -> & Hjobs)%create_job_Ret.
  split; [apply job_template_admin|].
  eexists js, _. split; [exact Hjobs|reflexivity].
Qed.

Lemma C10_admin_is_constant_witness :
  contains (Py.nl +:+ "    admin = 0," +:+ Py.nl) example_block
  /\ exists js j,
       jobs (snd (create_job (initial_world example_script sample_clock))) = js ++ [j]
       /\ code j = example_block.
Proof.
  apply (C10_admin_is_constant (initial_world example_script sample_clock)).
  vm_compute. reflexivity.
Defined.

(** * Further properties of the program *)

(** ** What every run keeps *)

(** [meets R E Q m]: every run of [m] relates the world before to the
    world after by [R]; a value it returns satisfies [Q], and an
    exception it raises satisfies [E]. *)
Definition meets (R : World -> World -> Prop) (E : exn -> Prop)
    {A} (Q : A -> Prop) (m : M A) : Prop :=
  forall w r w', m w = (r, w') ->
    R w w' /\ match r with Ret a => Q a | Raise e => E e | OutOfFuel => True end.

(** No condition on the value. *)
Definition any {A} : A -> Prop := fun _ => True.

Section Meets.
Variable R : World -> World -> Prop.
Variable E : exn -> Prop.
Hypothesis R_refl : forall w, R w w.
Hypothesis R_trans : forall a b c, R a b -> R b c -> R a c.

Lemma meets_ret {A} (Q : A -> Prop) a : Q a -> meets R E Q (ret a).
Proof. intros H w r w' [= <- <-]. auto. Qed.

Lemma meets_ret_any {A} (a : A) : meets R E any (ret a).
Proof. by apply meets_ret. Qed.

Lemma meets_raise {A} (Q : A -> Prop) e : E e -> meets R E Q (raise e).
Proof. intros H w r w' [= <- <-]. auto. Qed.

Lemma meets_bind {A B} (Q : A -> Prop) (Q' : B -> Prop) m k :
  meets R E Q m -> (forall a, Q a -> meets R E Q' (k a)) ->
  meets R E Q' (x <- m ;; k x).
Proof.
  intros Hm Hk w r w'. unfold bind.
  destruct (m w) as [[a|e|] w1] eqn:Em; apply Hm in Em as [HR HQ].
  - intros Ek. apply (Hk a HQ) in Ek as [HR' HQ']. eauto.
  - intros [= <- <-]. auto.
  - intros [= <- <-]. auto.
Qed.

Lemma meets_weaken {A} (Q Q' : A -> Prop) m :
  meets R E Q m -> (forall a, Q a -> Q' a) -> meets R E Q' m.
Proof.
  intros Hm HQ w r w' Em. apply Hm in Em as [HR Hr]. split; [done|].
  destruct r; auto.
Qed.

Lemma meets_any {A} (Q : A -> Prop) m : meets R E Q m -> meets R E any m.
Proof. intros Hm. by apply (meets_weaken Q). Qed.

Lemma meets_if {A} (Q : A -> Prop) (b : bool) m1 m2 :
  meets R E Q m1 -> meets R E Q m2 -> meets R E Q (if b then m1 else m2).
Proof. by destruct b. Qed.

(** The handler's exception is one of [E] or caught. *)
Lemma meets_try {A} (Q : A -> Prop) body e handler :
  meets R E Q body -> meets R E Q handler ->
  meets R E Q (try_except body e handler).
Proof.
  intros Hb Hh w r w'. unfold try_except.
  destruct (body w) as [[a|e'|] w1] eqn:Eb; apply Hb in Eb as [HR HQ].
  - intros [= <- <-]. auto.
  - destruct (decide (e' = e)).
    + intros Eh. apply Hh in Eh as [HR' HQ']. eauto.
    + intros [= <- <-]. auto.
  - intros [= <- <-]. auto.
Qed.

Lemma meets_loop {S A} (Q : A -> Prop) (body : S -> M (S + A)) n :
  (forall s, meets R E (fun r => match r with inl _ => True | inr a => Q a end) (body s)) ->
  forall s, meets R E Q (loop n body s).
Proof.
  intros Hb. induction n as [|n IH]; intros s.
  - intros w r w' [= <- <-]. auto.
  - cbn [loop]. eapply meets_bind; [apply Hb|].
    intros [s'|a] H; [apply IH|by apply meets_ret].
Qed.

Lemma meets_while {S A} (Q : A -> Prop) (body : S -> M (S + A)) s :
  (forall s, meets R E (fun r => match r with inl _ => True | inr a => Q a end) (body s)) ->
  meets R E Q (while_true body s).
Proof. intros Hb w. by apply meets_loop. Qed.

Lemma meets_for_each {A} (l : list A) (body : A -> M unit) :
  (forall a, meets R E any (body a)) -> meets R E any (for_each l body).
Proof.
  intros Hb. induction l as [|a l IH]; cbn [for_each].
  - apply meets_ret_any.
  - eapply meets_bind; [apply Hb|]. intros _ _. apply IH.
Qed.

End Meets.

(** Proves [meets] along the binds of a program, from the lemmas in the
    hint database [meets]. *)
Ltac meets_step :=
  lazymatch goal with
  | |- meets _ _ _ (bind _ _) => eapply meets_bind; [assumption| |intros ? ?]
  | |- meets _ _ _ (if _ then _ else _) => apply meets_if
  | |- meets _ _ _ (try_except _ _ _) => apply meets_try; [assumption|..]
  | |- meets _ _ _ (ret _) =>
      first [apply meets_ret_any; assumption
            | apply meets_ret; [assumption|cbn; done]]
  | |- meets _ _ _ _ =>
      first [solve [eauto with meets]
            | eapply meets_any; solve [eauto with meets]]
  end.
Ltac meets_run := repeat meets_step.

Create HintDb meets discriminated.

(** The program under a relation that no printing, reading, or appended
    job breaks, with [EOFError] and [ValueError] among the exceptions. *)
Section MeetsProgram.
Variable R : World -> World -> Prop.
Variable E : exn -> Prop.
Hypothesis R_refl : forall w, R w w.
Hypothesis R_trans : forall a b c, R a b -> R b c -> R a c.
Hypothesis R_out : forall o w, R w (set_stdout o w).
Hypothesis R_in : forall i w, R w (set_stdin i w).
Hypothesis R_jobs : forall j w, R w (set_jobs (jobs w ++ [j]) w).
Hypothesis E_eof : E EOFError.
Hypothesis E_value : E ValueError.
Hypothesis save_jobs_meets : meets R E any save_jobs.

Local Hint Resolve R_refl meets_ret_any : meets.

Lemma print_meets s : meets R E any (print s).
Proof. intros w r w' [= <- <-]. split; [apply R_out|done]. Qed.

Lemma input_meets p : meets R E any (input p).
Proof.
  intros w r w'. unfold input.
  destruct (stdin w) as [|l rest]; intros [= <- <-].
  - split; [apply R_out|apply E_eof].
  - split; [|done]. eapply R_trans; [apply R_out|apply R_in].
Qed.

Lemma get_jobs_meets : meets R E any get_jobs.
Proof. intros w r w' [= <- <-]. split; [apply R_refl|done]. Qed.

Lemma append_job_meets j : meets R E any (append_job j).
Proof. intros w r w' [= <- <-]. split; [apply R_jobs|done]. Qed.

(** [int(v)] of a [str] raises nothing but [ValueError]. *)
Lemma int_of_meets v : is_Some v -> meets R E any (int_of v).
Proof.
  intros [s ->]. cbn. destruct (Py.int s).
  - apply meets_ret_any. done.
  - by apply meets_raise.
Qed.

(** A method call on a [str] raises nothing. *)
Lemma str_of_meets v : is_Some v -> meets R E any (str_of v).
Proof. intros [s ->]. by apply meets_ret_any. Qed.

Local Hint Resolve print_meets input_meets get_jobs_meets append_job_meets
  int_of_meets str_of_meets : meets.

Lemma is_y_meets v : is_Some v -> meets R E any (is_y v).
Proof. intros H. unfold is_y. meets_run. Qed.

Lemma get_user_input_meets p d r : meets R E any (get_user_input p d r).
Proof.
  unfold get_user_input. apply meets_while; [done..|]. intros []. meets_run.
Qed.

(** A prompt with a default returns a [str], never [None]. *)
Lemma get_user_input_default_meets p d r :
  meets R E is_Some (get_user_input p (Some d) r).
Proof.
  intros w res w' H. split.
  - by apply get_user_input_meets in H as [HR _].
  - destruct (stdin w) as [|l rest] eqn:Hin.
    + rewrite get_user_input_eof in H by done. by injection H as <- _.
    + rewrite (get_user_input_default _ _ _ w l rest Hin) in H.
      injection H as <- _. by eexists.
Qed.

Local Hint Resolve is_y_meets get_user_input_meets get_user_input_default_meets : meets.

Lemma get_validated_int_meets p lo hi d :
  meets R E any (get_validated_int p lo hi d).
Proof.
  unfold get_validated_int, get_validated_int_round.
  apply meets_while; [done..|]. intros []. meets_run.
Qed.
Local Hint Resolve get_validated_int_meets : meets.

Lemma get_color_input_meets : meets R E any get_color_input.
Proof. unfold get_color_input. meets_run. Qed.

Lemma get_models_input_meets : meets R E any get_models_input.
Proof.
  unfold get_models_input, get_models_round.
  eapply meets_bind; [assumption|meets_run|]. intros _ _.
  eapply meets_bind; [assumption| |].
  - apply (meets_while R E R_refl R_trans any). intros s. meets_run.
  - intros [|m [|m' ms]] _; meets_run.
Qed.

Lemma get_weapons_input_meets : meets R E any get_weapons_input.
Proof.
  unfold get_weapons_input, get_weapons_round.
  eapply meets_bind; [assumption|meets_run|]. intros _ _.
  eapply meets_bind; [assumption| |].
  - apply (meets_while R E R_refl R_trans any). intros s. meets_run.
  - intros ws _. meets_run.
Qed.

Lemma get_spawn_settings_meets : meets R E any get_spawn_settings.
Proof. unfold get_spawn_settings. meets_run. Qed.

Local Hint Resolve get_color_input_meets get_models_input_meets
  get_weapons_input_meets get_spawn_settings_meets : meets.

Lemma create_job_meets : meets R E any create_job.
Proof. unfold create_job. meets_run. Qed.

Lemma print_jobs_meets l : forall i, meets R E any (print_jobs i l).
Proof. induction l; intros i; cbn [print_jobs]; meets_run. Qed.

Local Hint Resolve create_job_meets print_jobs_meets save_jobs_meets : meets.

Lemma show_menu_meets : meets R E any show_menu.
Proof.
  unfold show_menu, show_menu_round, print_generated.
  apply meets_while; [done..|]. intros []. meets_run.
Qed.
Local Hint Resolve show_menu_meets : meets.

Lemma main_meets : meets R E any main.
Proof. unfold main, print_generated. meets_run. Qed.

End MeetsProgram.

(** ** [save_jobs] always returns *)

Lemma save_jobs_cases w :
  (jobs w = [] /\ save_jobs w
                  = (Ret tt, set_stdout (stdout w ++ ["No jobs to save!" +:+ Py.nl]) w))
  \/ (jobs w <> [] /\ exists w',
        save_jobs w = (Ret tt, w')
        /\ files w' = <[save_file_name (clock w (ticks w)) :=
                          save_header (clock w (S (ticks w))) +:+ save_body (jobs w)]>
                        (files w)
        /\ jobs w' = jobs w /\ stdin w' = stdin w
        /\ clock w' = clock w /\ ticks w' = S (S (ticks w))).
Proof.
  destruct (decide (jobs w = [])) as [Hj|Hj].
  - left. split; [done|]. by apply save_jobs_empty.
  - right. split; [done|]. by apply save_jobs_run.
Qed.

(** ** Which exceptions can leave the program *)







(** ** The session only grows *)

(** The jobs before are the first jobs after, unchanged. *)
Definition session_extends (w w' : World) : Prop :=
  exists added, jobs w' = jobs w ++ added.

Lemma session_extends_refl w : session_extends w w.
Proof. exists []. by rewrite app_nil_r. Qed.

Lemma session_extends_same w w' : jobs w' = jobs w -> session_extends w w'.
Proof. intros H. exists []. by rewrite app_nil_r. Qed.

Lemma session_extends_trans a b c :
  session_extends a b -> session_extends b c -> session_extends a c.
Proof.
  intros [x Hx] [y Hy]. exists (x ++ y). by rewrite Hy, Hx, app_assoc.
Qed.

Lemma save_jobs_session E : meets session_extends E any save_jobs.
Proof.
  intros w r w' H.
  destruct (save_jobs_cases w) as [[_ Es]|[_ (w1 & Es & _ & Hj & _)]];
    rewrite Es in H; injection H as <- <-; (split; [|done]).
  - exists []. by rewrite app_nil_r.
  - exists []. by rewrite app_nil_r.
Qed.

(** X2: whatever happens in a run of [main] or of [show_menu] (jobs
    created, listed, saved, a wrong choice, an exception), the jobs
    recorded before are still there afterwards, in place and unchanged:
    jobs are only ever appended. *)
Theorem X2_session_append_only (w : World) :
  (exists added, jobs (snd (main w)) = jobs w ++ added)
  /\ (exists added, jobs (snd (show_menu w)) = jobs w ++ added).
Proof.
  assert (Hall : forall e : exn, any e) by done.
  split.
  - destruct (main w) as [r w'] eqn:Em.
    eapply (main_meets session_extends any) in Em as [HR _]; try done.
    + apply session_extends_refl.
    + apply session_extends_trans.
    + intros o w0. by apply session_extends_same.
    + intros i w0. by apply session_extends_same.
    + intros j w0. by exists [j].
    + apply save_jobs_session.
  - destruct (show_menu w) as [r w'] eqn:Em.
    eapply (show_menu_meets session_extends any) in Em as [HR _]; try done.
    + apply session_extends_refl.
    + apply session_extends_trans.
    + intros o w0. by apply session_extends_same.
    + intros i w0. by apply session_extends_same.
    + intros j w0. by exists [j].
    + apply save_jobs_session.
Qed.

(** ** Which files the program touches *)

(** Under a clock whose readings are all calendar times, the clock is
    left alone and every file whose name is not of the form
    [darkrp_jobs_<date>_<time>.lua] keeps its content (or stays absent). *)
Definition other_files_kept (w w' : World) : Prop :=
  (forall n, valid_datetime (clock w n)) ->
  clock w' = clock w
  /\ forall name, matches file_name_pattern name = false ->
       files w' !! name = files w !! name.

Lemma other_files_kept_refl w : other_files_kept w w.
Proof. by intros _. Qed.




Definition noon_clock (_ : nat) : datetime := mkDatetime 2024 3 9 12 0 0.


(** ** What [create_job] changes *)

(** No file operation happened and the clock was not read. *)
Definition no_io (w w' : World) : Prop :=
  files w' = files w /\ fs_log w' = fs_log w
  /\ ticks w' = ticks w /\ clock w' = clock w.

Definition same_jobs (w w' : World) : Prop := jobs w' = jobs w.

(** A program that leaves [self.jobs] alone, however it ends. *)
Definition keeps_jobs {A} (m : M A) : Prop :=
  forall w r w', m w = (r, w') -> jobs w' = jobs w.

(** A program that appends exactly one job, holding the text it returns,
    when it returns, and leaves [self.jobs] alone when it raises. *)
Definition appends_its_block (m : M string) : Prop :=
  forall w r w', m w = (r, w') ->
    match r with
    | Ret b => exists j, jobs w' = jobs w ++ [j] /\ code j = b
    | _ => jobs w' = jobs w
    end.

Lemma meets_keeps_jobs {A} (Q : A -> Prop) (m : M A) :
  meets same_jobs any Q m -> keeps_jobs m.
Proof. intros H w r w' Em. by apply H in Em as [HR _]. Qed.

Lemma bind_keeps_then_appends {A} (m : M A) (k : A -> M string) :
  keeps_jobs m -> (forall a, appends_its_block (k a)) ->
  appends_its_block (x <- m ;; k x).
Proof.
  intros Hm Hk w r w'. unfold bind.
  destruct (m w) as [[a|e|] w1] eqn:Em; apply Hm in Em.
  - intros Ek. apply Hk in Ek. rewrite <- Em. exact Ek.
  - by intros [= <- <-].
  - by intros [= <- <-].
Qed.

Lemma int_of_keeps v : keeps_jobs (int_of v).
Proof.
  intros w r w'. destruct v as [s|]; cbn; [destruct (Py.int s)|];
    by intros [= <- <-].
Qed.

Lemma str_of_keeps v : keeps_jobs (str_of v).
Proof. intros w r w'. destruct v; by intros [= <- <-]. Qed.

Lemma is_y_keeps v : keeps_jobs (is_y v).
Proof. intros w r w'. destruct v; by intros [= <- <-]. Qed.

Lemma prompts_keep_jobs :
  (forall s, keeps_jobs (print s))
  /\ (forall p d r, keeps_jobs (get_user_input p d r))
  /\ keeps_jobs get_color_input
  /\ keeps_jobs get_models_input
  /\ keeps_jobs get_weapons_input
  /\ keeps_jobs get_spawn_settings.
Proof.
  assert (Hrefl : forall w, same_jobs w w) by done.
  assert (Htrans : forall a b c, same_jobs a b -> same_jobs b c -> same_jobs a c)
    by (unfold same_jobs; congruence).
  assert (Hout : forall o w, same_jobs w (set_stdout o w)) by done.
  assert (Hin : forall i w, same_jobs w (set_stdin i w)) by done.
  assert (Hany : forall e : exn, any e) by done.
  repeat split; intros.
  - eapply meets_keeps_jobs, (print_meets same_jobs any); done.
  - eapply meets_keeps_jobs, (get_user_input_meets same_jobs any); done.
  - eapply meets_keeps_jobs, (get_color_input_meets same_jobs any); done.
  - eapply meets_keeps_jobs, (get_models_input_meets same_jobs any); done.
  - eapply meets_keeps_jobs, (get_weapons_input_meets same_jobs any); done.
  - eapply meets_keeps_jobs, (get_spawn_settings_meets same_jobs any); done.
Qed.

Lemma create_job_appends_its_block : appends_its_block create_job.
Proof.
  destruct prompts_keep_jobs as (Hp & Hu & Hc & Hm & Hw & Hs).
  unfold create_job.
  repeat lazymatch goal with
         | |- appends_its_block (bind (append_job _) _) => fail
         | |- appends_its_block (bind _ _) =>
             apply bind_keeps_then_appends;
             [first [apply Hp | apply Hu | apply Hc | apply Hm | apply Hw | apply Hs
                    | apply int_of_keeps | apply str_of_keeps | apply is_y_keeps]
             |intros ?]
         end.
  intros w r w' [= <- <-]. cbn. by eexists.
Qed.

Lemma create_job_no_io (w : World) : no_io w (snd (create_job w)).
Proof.
  destruct (create_job w) as [r w'] eqn:Em.
  eapply (create_job_meets no_io any) in Em as [HR _]; try done.
  unfold no_io. intros a b c (-> & -> & -> & ->) (-> & -> & -> & ->). done.
Qed.

(** X4: [create_job] does no file operation and does not read the clock.
    When it returns a block it has appended exactly one job, whose code is
    that block, after the jobs that were there; when it raises (the script
    ended, or a response was no number) the jobs are exactly as before: a
    job is recorded whole or not at all. *)
Theorem X4_create_job_all_or_nothing (w : World) :
  no_io w (snd (create_job w))
  /\ match fst (create_job w) with
     | Ret block =>
         exists j, jobs (snd (create_job w)) = jobs w ++ [j] /\ code j = block
     | _ => jobs (snd (create_job w)) = jobs w
     end.
Proof.
  split; [apply create_job_no_io|].
  destruct (create_job w) as [r w'] eqn:Em.
  by apply create_job_appends_its_block in Em.
Qed.

(** ** A required prompt without default *)

(** One round of the loop of [get_user_input]. *)
Definition get_user_input_round (prompt : string) (default : option string)
    (required : bool) (_ : unit) : M (unit + option string) :=
  line <- input (prompt_text prompt default) ;;
  let user_input := Py.strip line in
  if negb (Py.truthy user_input) && bool_decide (is_Some default)
  then ret (inr default)
  else if Py.truthy user_input || negb required
  then ret (inr (if Py.truthy user_input then Some user_input else None))
  else print "This field is required!" ;;; ret (inl tt).

Lemma get_user_input_rounds prompt default required :
  get_user_input prompt default required
  = while_true (get_user_input_round prompt default required) tt.
Proof. reflexivity. Qed.

Lemma get_user_input_round_consumes prompt default required :
  consumes (get_user_input_round prompt default required).
Proof.
  intros [] w [] w' H. revert H. apply bind_reads_l; [apply input_reads|].
  intros l. auto 10 with shrinks.
Qed.

Lemma get_user_input_round_total prompt default required u :
  total (get_user_input_round prompt default required u).
Proof. unfold get_user_input_round. auto 10 with total. Qed.

Section Required.
Variable prompt : string.

(** The world after a blank response to a required prompt: the prompt
    and the reminder were written, the line is gone. *)
Definition after_reminder (rest : list string) (w : World) : World :=
  set_stdin rest
    (set_stdout (stdout w ++ [prompt_text prompt None;
                              "This field is required!" +:+ Py.nl]) w).

Lemma get_user_input_round_blank w b rest :
  stdin w = b :: rest -> blank b ->
  get_user_input_round prompt None true tt w
  = (Ret (inl tt), after_reminder rest w).
Proof.
  intros Hin Hb. unfold get_user_input_round, bind, input.
  rewrite Hin, Hb. cbn.
  unfold after_reminder, set_stdin, set_stdout. cbn.
  by rewrite <- app_assoc.
Qed.

Lemma get_user_input_required_blank w b rest :
  stdin w = b :: rest -> blank b ->
  get_user_input prompt None true w =
  get_user_input prompt None true (after_reminder rest w).
Proof.
  intros Hin Hb. rewrite !get_user_input_rounds.
  rewrite while_true_unfold
    by (apply get_user_input_round_consumes || apply get_user_input_round_total).
  unfold bind at 1. by rewrite (get_user_input_round_blank w b rest Hin Hb).
Qed.

(** X5: a prompt that is required and has no default answers every
    blank response with the reminder and the prompt again, and returns
    the first response that is not blank, stripped; the lines after it
    stay unread. *)
Theorem X5_required_prompt_asks_again (bad : list string) (l : string)
    (rest : list string) (w : World) :
  Forall blank bad -> ~ blank l -> stdin w = bad ++ l :: rest ->
  get_user_input prompt None true w =
  (Ret (Some (Py.strip l)),
   set_stdin rest
     (set_stdout
        (stdout w
         ++ flat_map (fun _ => [prompt_text prompt None;
                                "This field is required!" +:+ Py.nl]) bad
         ++ [prompt_text prompt None]) w)).
Proof.
  intros Hbad Hl. revert w.
  induction Hbad as [|b bad Hb _ IH]; intros w Hin; cbn in Hin.
  - rewrite (get_user_input_answer _ _ _ w l rest Hin)
      by (by apply not_false_is_true in Hl).
    reflexivity.
  - rewrite (get_user_input_required_blank w b _ Hin Hb).
    rewrite IH by reflexivity.
    unfold after_reminder, set_stdin, set_stdout. cbn.
    by rewrite <- app_assoc.
Qed.

End Required.

Lemma X5_required_prompt_asks_again_witness :
  get_user_input "Name" None true (initial_world [""; "  "; " Bob "; "left"] sample_clock)
  = (Ret (Some (Py.strip " Bob ")),
     set_stdin ["left"]
       (set_stdout
          ([] ++ flat_map (fun _ => [prompt_text "Name" None;
                                     "This field is required!" +:+ Py.nl]) [""; "  "]
           ++ [prompt_text "Name" None])
          (initial_world [""; "  "; " Bob "; "left"] sample_clock))).
Proof.
  apply (X5_required_prompt_asks_again "Name" [""; "  "] " Bob " ["left"]).
  - repeat constructor.
  - by vm_compute.
  - reflexivity.
Defined.


(** ** Numbers in a range, and the colour *)

(** X7: [get_validated_int] returns only a number between its bounds,
    and nothing but the [EOFError] of an exhausted script leaves it: a
    response that is no number never raises. *)
Theorem X7_validated_int_in_range (prompt : string) (min_val max_val : Z)
    (default : string) (w : World) :
  match fst (get_validated_int prompt min_val max_val default w) with
  | Ret z => (min_val <= z <= max_val)%Z
  | Raise e => e = EOFError
  | OutOfFuel => False
  end.
Proof.
  destruct (get_validated_int prompt min_val max_val default w) as [r w'] eqn:Ev.
  apply get_validated_int_sound in Ev as [(z & -> & Hz)| ->]; done.
Qed.



(** X9: whenever [get_color_input] returns, its result is
    [Color(r, g, b, a)] with four numbers between 0 and 255; nothing but
    [EOFError] leaves it. *)
Theorem X9_color_channels_in_range (w : World) :
  match fst (get_color_input w) with
  | Ret c =>
      exists r g b a,
        (0 <= r <= 255 /\ 0 <= g <= 255 /\ 0 <= b <= 255 /\ 0 <= a <= 255)%Z
        /\ c = "Color(" +:+ Py.str r +:+ ", " +:+ Py.str g +:+ ", "
               +:+ Py.str b +:+ ", " +:+ Py.str a +:+ ")"
  | Raise e => e = EOFError
  | OutOfFuel => False
  end.
Proof.
  unfold get_color_input. unfold bind at 1. cbn [print].
  unfold bind at 1.
  destruct (get_validated_int "Red (0-255)" _ _ _ _) as [o w1] eqn:E1.
  apply get_validated_int_sound in E1 as [(r & -> & Hr)| ->]; [|done].
  unfold bind at 1.
  destruct (get_validated_int "Green (0-255)" _ _ _ _) as [o w2] eqn:E2.
  apply get_validated_int_sound in E2 as [(g & -> & Hg)| ->]; [|done].
  unfold bind at 1.
  destruct (get_validated_int "Blue (0-255)" _ _ _ _) as [o w3] eqn:E3.
  apply get_validated_int_sound in E3 as [(b & -> & Hb)| ->]; [|done].
  unfold bind at 1.
  destruct (get_validated_int "Alpha (0-255)" _ _ _ _) as [o w4] eqn:E4.
  apply get_validated_int_sound in E4 as [(a & -> & Ha)| ->]; [|done].
  cbn. exists r, g, b, a. done.
Qed.

(** ** The spawn settings *)






(** X11: when [get_spawn_settings] returns it has read exactly seven
    lines.  The health is the first response, or 100 when that is blank;
    the maximum health is the second response, or the health just
    entered when that is blank; armor, walk speed, run speed and jump
    power are the third, fifth, sixth and seventh response, or 0, 200,
    400 and 200. *)
Theorem X11_spawn_settings_defaults (w w' : World) (s : SpawnSettings) :
  get_spawn_settings w = (Ret s, w') ->
  exists r1 r2 r3 r4 r5 r6 r7,
    stdin w = [r1; r2; r3; r4; r5; r6; r7] ++ stdin w'
    /\ Py.int (answer_or "100" r1) = Some (health s)
    /\ (blank r2 -> max_health s = health s)
    /\ (~ blank r2 -> Py.int r2 = Some (max_health s))
    /\ Py.int (answer_or "0" r3) = Some (armor s)
    /\ Py.int (answer_or "200" r5) = Some (walk_speed s)
    /\ Py.int (answer_or "400" r6) = Some (run_speed s)
    /\ Py.int (answer_or "200" r7) = Some (jump_power s).
Proof.
  intros E. unfold get_spawn_settings in E.
  unfold bind at 1 in E. cbn [print] in E.
  apply int_prompt_Ret in E as (r1 & t1 & h & H1 & Hh & E).
  apply int_prompt_Ret in E as (r2 & t2 & mh & H2 & Hmh & E).
  apply int_prompt_Ret in E as (r3 & t3 & a & H3 & Ha & E).
  apply bind_Ret in E as (v & w4 & E4 & E).
  apply get_user_input_default_Ret in E4 as (r4 & t4 & H4 & -> & ->).
  apply bind_Ret in E as (ma & w5 & Em & E).
  assert (w5 = after_input
                 (prompt_text "Max Armor (leave empty to match Armor)" (Some (Py.str a)))
                 t4 (after_input (prompt_text "Armor" (Some "0")) t3
                       (after_input (prompt_text "Max Health" (Some (Py.str h))) t2
                          (after_input (prompt_text "Health" (Some "100")) t1
                             (set_stdout (stdout w ++ [(Py.nl +:+ "--- Spawn Settings ---") +:+ Py.nl]) w)))))
    as ->.
  { destruct (Py.truthy_opt _) in Em.
    - by apply int_of_Ret in Em as [-> _].
    - by injection Em as _ <-. }
  apply int_prompt_Ret in E as (r5 & t5 & ws & H5 & Hws & E).
  apply int_prompt_Ret in E as (r6 & t6 & rs & H6 & Hrs & E).
  apply int_prompt_Ret in E as (r7 & t7 & jp & H7 & Hjp & E).
  injection E as <- <-.
  cbn in H1, H2, H3, H4, H5, H6, H7.
  subst t1 t2 t3 t4 t5 t6.
  exists r1, r2, r3, r4, r5, r6, r7. cbn.
  split; [done|]. split; [done|].
  unfold answer_or, blank in *.
  destruct (Py.truthy (Py.strip r2)) eqn:Hb.
  - split; [done|]. split; [by rewrite <- int_strip|done].
  - rewrite int_str in Hmh. injection Hmh as <-.
    split; [done|]. split; [by intros []|done].
Qed.

Lemma X11_spawn_settings_defaults_witness :
  exists r1 r2 r3 r4 r5 r6 r7,
    ["150"; ""; ""; ""; ""; ""; ""; "left"] = [r1; r2; r3; r4; r5; r6; r7] ++ ["left"]
    /\ Py.int (answer_or "100" r1) = Some 150%Z
    /\ (blank r2 -> 150 = 150)%Z
    /\ (~ blank r2 -> Py.int r2 = Some 150%Z)
    /\ Py.int (answer_or "0" r3) = Some 0%Z
    /\ Py.int (answer_or "200" r5) = Some 200%Z
    /\ Py.int (answer_or "400" r6) = Some 400%Z
    /\ Py.int (answer_or "200" r7) = Some 200%Z.
Proof.
  refine (X11_spawn_settings_defaults
            (initial_world ["150"; ""; ""; ""; ""; ""; ""; "left"] sample_clock)
            (snd (get_spawn_settings
                    (initial_world ["150"; ""; ""; ""; ""; ""; ""; "left"] sample_clock)))
            (mkSpawn 150 150 0 0 200 400 200) _).
  vm_compute. reflexivity.
Defined.

(** ** The names a job is recorded under *)

Lemma upper_char_idemp c : Py.upper_char (Py.upper_char c) = Py.upper_char c.
Proof. destruct c as [[|] [|] [|] [|] [|] [|] [|] [|]]; reflexivity. Qed.

Lemma upper_idemp s : Py.upper (Py.upper s) = Py.upper s.
Proof.
  induction s as [|c s IH]; [done|].
  unfold Py.upper in *. cbn [Py.map_chars]. by rewrite upper_char_idemp, IH.
Qed.

(** X12: the job [create_job] records carries as team name the first
    response (or [TEAM_CUSTOM] when that is blank) in upper case, so that
    upper-casing it again changes nothing, and as job name the second
    response (or [Custom Job]) as typed; it is appended after the jobs
    that were there, and its code is the block returned. *)
Theorem X12_recorded_names (w w' : World) (block l1 l2 : string)
    (rest : list string) :
  stdin w = l1 :: l2 :: rest ->
  create_job w = (Ret block, w') ->
  exists j,
    jobs w' = jobs w ++ [j]
    /\ team_name j = Py.upper (answer_or "TEAM_CUSTOM" l1)
    /\ Py.upper (team_name j) = team_name j
    /\ job_name j = Some (answer_or "Custom Job" l2)
    /\ code j = block.
Proof.
  intros Hin E.
  pose proof (create_job_appends_its_block w _ _ E) as (j & Hj & Hc).
  exists j. split; [done|].
  unfold create_job in E.
  do 3 (unfold bind at 1 in E; cbn [print] in E).
  apply bind_Ret in E as (v & w1 & E1 & E).
  rewrite (get_user_input_default _ _ _ _ l1 (l2 :: rest)) in E1 by exact Hin.
  injection E1 as <- <-.
  unfold bind at 1 in E. cbn [str_of ret] in E.
  apply bind_Ret in E as (jn & w2 & E2 & E).
  rewrite (get_user_input_default _ _ _ _ l2 rest) in E2 by reflexivity.
  injection E2 as <- <-.
  repeat lazymatch type of E with
         | bind (append_job _) _ _ = _ => fail
         | bind _ _ _ = _ =>
             apply bind_Ret in E as (? & ? & _ & E); cbv beta zeta in E
         end.
  apply bind_Ret in E as ([] & w3 & E3 & E).
  injection E3 as <-. injection E as <- <-.
  cbn [jobs set_jobs] in Hj. apply app_inj_tail in Hj as [_ <-].
  cbn. by rewrite upper_idemp.
Qed.

Lemma X12_recorded_names_witness :
  exists j,
    jobs (snd (create_job (initial_world ("team_test" :: tail example_script) sample_clock)))
    = [] ++ [j]
    /\ team_name j = Py.upper (answer_or "TEAM_CUSTOM" "team_test")
    /\ Py.upper (team_name j) = team_name j
    /\ job_name j = Some (answer_or "Custom Job" "Tester")
    /\ code j = example_block.
Proof.
  refine (X12_recorded_names
            (initial_world ("team_test" :: tail example_script) sample_clock)
            _ example_block "team_test" "Tester" (tail (tail example_script)) _ _).
  - reflexivity.
  - vm_compute. reflexivity.
Defined.

(** ** The file operations of a save *)

(** The two writes the loop of [save_jobs] does for a job. *)
Definition job_writes (name : string) (j : Job) : list fs_event :=
  [Wrote name (code j); Wrote name (Py.nl +:+ Py.nl)].

Lemma write_jobs_log name js : forall w,
  exists w',
    for_each js (fun job => write name (code job) ;;; write name (Py.nl +:+ Py.nl)) w
    = (Ret tt, w')
    /\ fs_log w' = fs_log w ++ flat_map (job_writes name) js
    /\ same_but_files w w'.
Proof.
  induction js as [|j js IH]; intros w.
  - exists w. cbn. by rewrite app_nil_r.
  - cbn [for_each]. unfold bind at 1. unfold bind at 1. cbn [write].
    unfold bind at 1. cbn [write].
    edestruct IH as (w' & -> & Hl & Hsame).
    exists w'. split; [done|]. split; [|exact Hsame].
    rewrite Hl. cbn. by rewrite <- !app_assoc.
Qed.

Lemma save_jobs_log w :
  jobs w <> [] ->
  exists w',
    save_jobs w = (Ret tt, w')
    /\ fs_log w' =
       fs_log w
       ++ [Opened (save_file_name (clock w (ticks w)));
           Wrote (save_file_name (clock w (ticks w)))
                 ("-- DarkRP Jobs generated with Python Script" +:+ Py.nl);
           Wrote (save_file_name (clock w (ticks w)))
                 ("-- Created on: " +:+ strftime_human (clock w (S (ticks w)))
                  +:+ Py.nl +:+ Py.nl)]
       ++ flat_map (job_writes (save_file_name (clock w (ticks w)))) (jobs w)
       ++ [Closed (save_file_name (clock w (ticks w)))]
    /\ stdout w' =
       stdout w ++ [(Py.nl +:+ "✅ Jobs saved to: "
                     +:+ save_file_name (clock w (ticks w))) +:+ Py.nl].
Proof.
  intros Hj. unfold save_jobs. unfold bind at 1. cbn [get_jobs].
  rewrite bool_decide_eq_false_2 by done.
  unfold bind at 1. cbn [now]. unfold bind at 1. cbn [open_w].
  unfold bind at 1. cbn [write]. unfold bind at 1. cbn [now].
  unfold bind at 1. cbn [write]. unfold bind at 1. cbn [get_jobs].
  unfold bind at 1.
  fold (save_file_name (clock w (ticks w))).
  set (name := save_file_name (clock w (ticks w))).
  cbn [files set_files set_ticks jobs clock ticks].
  match goal with
  | |- context [for_each _ _ ?w0] =>
      destruct (write_jobs_log name (jobs w) w0)
        as (w' & -> & Hl & Hj' & Hin & Hout & Hc & Ht)
  end.
  unfold bind. cbn [close print].
  eexists. split; [reflexivity|]. cbn.
  rewrite Hl, Hout. cbn. split; [|done].
  by rewrite <- !app_assoc.
Qed.

(** X13: a save of a session that is not empty opens one file, writes
    the two header lines and then two chunks per job, and closes the file
    after the last write; it reads the clock exactly twice, reads nothing
    from the script, and every other path keeps what it held. *)
Theorem X13_save_touches_one_file (w : World) :
  jobs w <> [] ->
  fs_log (snd (save_jobs w)) =
    fs_log w
    ++ [Opened (save_file_name (clock w (ticks w)));
        Wrote (save_file_name (clock w (ticks w)))
              ("-- DarkRP Jobs generated with Python Script" +:+ Py.nl);
        Wrote (save_file_name (clock w (ticks w)))
              ("-- Created on: " +:+ strftime_human (clock w (S (ticks w)))
               +:+ Py.nl +:+ Py.nl)]
    ++ flat_map (job_writes (save_file_name (clock w (ticks w)))) (jobs w)
    ++ [Closed (save_file_name (clock w (ticks w)))]
  /\ (forall other, other <> save_file_name (clock w (ticks w)) ->
        files (snd (save_jobs w)) !! other = files w !! other)
  /\ ticks (snd (save_jobs w)) = 2 + ticks w
  /\ stdin (snd (save_jobs w)) = stdin w.
Proof.
  intros Hj.
  destruct (save_jobs_log w Hj) as (w' & E & Hl & _).
  destruct (save_jobs_run w Hj) as (w'' & E' & Hf & _ & Hin & _ & Ht).
  rewrite E in E'. injection E' as <-. rewrite E. cbn [snd].
  split; [done|]. split; [|done].
  intros other Hne. rewrite Hf. by apply lookup_insert_ne.
Qed.

Lemma X13_save_touches_one_file_witness :
  fs_log (snd (save_jobs one_job_world)) =
    [] ++ [Opened "darkrp_jobs_20240309_090500.lua";
           Wrote "darkrp_jobs_20240309_090500.lua"
                 ("-- DarkRP Jobs generated with Python Script" +:+ Py.nl);
           Wrote "darkrp_jobs_20240309_090500.lua"
                 ("-- Created on: " +:+ "09.03.2024 09:05:01" +:+ Py.nl +:+ Py.nl)]
    ++ flat_map (job_writes "darkrp_jobs_20240309_090500.lua") (jobs one_job_world)
    ++ [Closed "darkrp_jobs_20240309_090500.lua"]
  /\ (forall other, other <> "darkrp_jobs_20240309_090500.lua" ->
        files (snd (save_jobs one_job_world)) !! other = files one_job_world !! other)
  /\ ticks (snd (save_jobs one_job_world)) = 2 + 0
  /\ stdin (snd (save_jobs one_job_world)) = [].
Proof.
  refine (X13_save_touches_one_file one_job_world _). discriminate.
Defined.

(** ** The menu *)

(** Worlds reached by printing and reading, in one normal form. *)
Lemma set_stdout_again X l w :
  set_stdout (stdout (set_stdout X w) ++ l) (set_stdout X w) = set_stdout (X ++ l) w.
Proof. reflexivity. Qed.

Lemma set_stdout_read_again X l i w :
  set_stdout (stdout (set_stdin i (set_stdout X w)) ++ l) (set_stdin i (set_stdout X w))
  = set_stdin i (set_stdout (X ++ l) w).
Proof. reflexivity. Qed.

Lemma after_input_written text rest X w :
  after_input text rest (set_stdout X w) = set_stdin rest (set_stdout (X ++ [text]) w).
Proof. reflexivity. Qed.

Lemma after_input_read_written text rest X i w :
  after_input text rest (set_stdin i (set_stdout X w))
  = set_stdin rest (set_stdout (X ++ [text]) w).
Proof. reflexivity. Qed.

Ltac world_norm :=
  repeat first [rewrite set_stdout_again | rewrite set_stdout_read_again
               | rewrite after_input_written | rewrite after_input_read_written].

Lemma bind_print {A} s (k : unit -> M A) w :
  bind (print s) k w = k tt (set_stdout (stdout w ++ [s +:+ Py.nl]) w).
Proof. reflexivity. Qed.

(** One [print] at the head of a program. *)
Ltac print_step := rewrite bind_print; cbv beta; world_norm.

(** Two worlds in normal form that differ in how the output is
    bracketed. *)
Ltac world_eq :=
  lazymatch goal with
  | |- set_stdin ?i ?a = set_stdin ?i ?b => apply (f_equal (set_stdin i)); world_eq
  | |- set_stdout ?x ?w = set_stdout ?y ?w =>
      apply (f_equal (fun o => set_stdout o w));
      cbn [app flat_map]; rewrite <- ?app_assoc; reflexivity
  | |- (?r, ?a) = (?r, ?b) => apply (f_equal (pair r)); world_eq
  end.

(** What one display of the menu writes, up to and with its prompt. *)
Definition menu_text : list string :=
  [(Py.nl +:+ Py.repeat "=" 50) +:+ Py.nl;
   "DARKRP JOB GENERATOR" +:+ Py.nl;
   Py.repeat "=" 50 +:+ Py.nl;
   "1. Create a new job" +:+ Py.nl;
   "2. Show all jobs" +:+ Py.nl;
   "3. Save jobs" +:+ Py.nl;
   "4. Exit" +:+ Py.nl;
   Py.repeat "=" 50 +:+ Py.nl;
   prompt_text "Choose an option" (Some "1")].

(** The world after the menu was shown and a choice read. *)
Definition after_choice (rest : list string) (w : World) : World :=
  set_stdin rest (set_stdout (stdout w ++ menu_text) w).

(** The selection a response to the menu stands for: blank is [1]. *)
Definition choice_of (c : string) : string := answer_or "1" c.

(** What [show_menu] does after the choice was read. *)
Definition menu_action (choice : option string) : M (unit + unit) :=
  if bool_decide (choice = Some "1") then
    job_code <- create_job ;;
    print_generated job_code ;;; ret (inl tt)
  else if bool_decide (choice = Some "2") then
    js <- get_jobs ;;
    (if bool_decide (js = []) then print "No jobs created!"
     else
       print (Py.nl +:+ Py.repeat "=" 50) ;;;
       print "CREATED JOBS:" ;;;
       print (Py.repeat "=" 50) ;;;
       print_jobs 1 js) ;;;
    ret (inl tt)
  else if bool_decide (choice = Some "3") then
    save_jobs ;;; ret (inl tt)
  else if bool_decide (choice = Some "4") then
    js <- get_jobs ;;
    (if bool_decide (js = []) then ret tt
     else
       v <- get_user_input "Save jobs before exiting? (y/n)" (Some "y") true ;;
       yes <- is_y v ;;
       if yes then save_jobs else ret tt) ;;;
    print "Goodbye!" ;;;
    ret (inr tt)
  else
    print "Invalid input!" ;;; ret (inl tt).

Lemma show_menu_round_choice w c rest :
  stdin w = c :: rest ->
  show_menu_round tt w = menu_action (Some (choice_of c)) (after_choice rest w).
Proof.
  intros Hin. unfold show_menu_round.
  do 8 print_step.
  unfold bind at 1.
  rewrite (get_user_input_default _ _ _ _ c rest) by exact Hin.
  world_norm.
  match goal with
  | |- _ ?W = _ => replace W with (after_choice rest w)
  end.
  - reflexivity.
  - unfold after_choice, menu_text. world_eq.
Qed.

Lemma show_menu_round_total u : total (show_menu_round u).
Proof. unfold show_menu_round, print_generated. auto 30 with total. Qed.

Lemma show_menu_unfold w :
  show_menu w =
  (r <- show_menu_round tt ;;
   match r with
   | inl _ => show_menu
   | inr a => ret a
   end) w.
Proof.
  unfold show_menu. rewrite while_true_unfold at 1.
  - unfold bind. destruct (show_menu_round tt w) as [[[[]|[]]|e|] w1]; done.
  - intros [] w0 [] w1 E. by apply show_menu_round_reads in E.
  - apply show_menu_round_total.
Qed.

(** The menu after a choice was read: the action, and the menu again
    unless the action ended it. *)
Lemma show_menu_choice w c rest :
  stdin w = c :: rest ->
  show_menu w =
  (r <- menu_action (Some (choice_of c)) ;;
   match r with
   | inl _ => show_menu
   | inr a => ret a
   end) (after_choice rest w).
Proof.
  intros Hin. rewrite show_menu_unfold. unfold bind.
  by rewrite (show_menu_round_choice w c rest Hin).
Qed.

(** A response to the menu that is none of 1 to 4 (and not blank, which
    stands for 1). *)
Definition invalid_choice (c : string) : Prop :=
  choice_of c <> "1" /\ choice_of c <> "2"
  /\ choice_of c <> "3" /\ choice_of c <> "4".

Lemma menu_action_invalid v w :
  v <> "1" -> v <> "2" -> v <> "3" -> v <> "4" ->
  menu_action (Some v) w
  = (Ret (inl tt), set_stdout (stdout w ++ ["Invalid input!" +:+ Py.nl]) w).
Proof.
  intros H1 H2 H3 H4. unfold menu_action.
  rewrite !bool_decide_eq_false_2 by congruence. reflexivity.
Qed.

Lemma show_menu_invalid w c rest :
  stdin w = c :: rest -> invalid_choice c ->
  show_menu w =
  show_menu (set_stdin rest
               (set_stdout (stdout w ++ menu_text ++ ["Invalid input!" +:+ Py.nl]) w)).
Proof.
  intros Hin (H1 & H2 & H3 & H4). rewrite (show_menu_choice w c rest Hin).
  unfold bind. rewrite menu_action_invalid by done.
  unfold after_choice. world_norm. f_equal. world_eq.
Qed.

(** X14: a selection that is none of 1 to 4 changes nothing but the
    output: after any number of them the menu goes on exactly as it
    would have from the start, on what is left of the script. *)
Theorem X14_menu_skips_invalid (cs rest : list string) (w : World) :
  Forall invalid_choice cs -> stdin w = cs ++ rest ->
  show_menu w =
  show_menu
    (set_stdin rest
       (set_stdout
          (stdout w ++ flat_map (fun _ => menu_text ++ ["Invalid input!" +:+ Py.nl]) cs)
          w)).
Proof.
  intros Hcs. revert w. induction Hcs as [|c cs Hc _ IH]; intros w Hin; cbn in Hin.
  - cbn [flat_map]. rewrite app_nil_r. f_equal. destruct w; cbn in *. by subst.
  - rewrite (show_menu_invalid w c _ Hin Hc).
    rewrite IH by reflexivity.
    f_equal. change (stdout (set_stdin ?i (set_stdout ?X ?v))) with X.
    cbn [flat_map].
    change (set_stdin rest (set_stdout ?Y (set_stdin ?i (set_stdout ?X w))))
      with (set_stdin rest (set_stdout Y w)).
    world_eq.
Qed.

Lemma X14_menu_skips_invalid_witness :
  show_menu (initial_world ["5"; "exit"; "4"] sample_clock) =
  show_menu
    (set_stdin ["4"]
       (set_stdout
          ([] ++ flat_map (fun _ => menu_text ++ ["Invalid input!" +:+ Py.nl])
                          ["5"; "exit"])
          (initial_world ["5"; "exit"; "4"] sample_clock))).
Proof.
  apply (X14_menu_skips_invalid ["5"; "exit"] ["4"]).
  - repeat constructor; by vm_compute.
  - reflexivity.
Defined.

(** A reply to a [y/n] question with default [d] that means yes. *)
Definition yes_or (d r : string) : bool := String.eqb (Py.lower (answer_or d r)) "y".

Lemma menu_action_exit w :
  menu_action (Some "4") w =
  (js <- get_jobs ;;
   (if bool_decide (js = []) then ret tt
    else
      v <- get_user_input "Save jobs before exiting? (y/n)" (Some "y") true ;;
      yes <- is_y v ;;
      if yes then save_jobs else ret tt) ;;;
   print "Goodbye!" ;;;
   ret (inr tt)) w.
Proof. reflexivity. Qed.

(** A [y/n] question with a default, answered by the line [reply]. *)
Lemma ask_yes_no {A} prompt d (k : bool -> M A) w reply rest :
  stdin w = reply :: rest ->
  (v <- get_user_input prompt (Some d) true ;; yes <- is_y v ;; k yes) w
  = k (yes_or d reply) (after_input (prompt_text prompt (Some d)) rest w).
Proof.
  intros Hin. unfold bind at 1.
  by rewrite (get_user_input_default _ _ _ w reply rest Hin).
Qed.

(** X15: selecting 4 with no job in the session ends the menu at once:
    it prints the farewell, asks nothing about saving, and changes
    nothing else. *)
Theorem X15_menu_exit_empty (w : World) (c : string) (rest : list string) :
  stdin w = c :: rest -> choice_of c = "4" -> jobs w = [] ->
  show_menu w =
  (Ret tt,
   set_stdin rest (set_stdout (stdout w ++ menu_text ++ ["Goodbye!" +:+ Py.nl]) w)).
Proof.
  intros Hin Hc Hj. rewrite (show_menu_choice w c rest Hin), Hc.
  unfold bind at 1. rewrite menu_action_exit.
  unfold bind at 1. cbn [get_jobs]. unfold after_choice.
  change (jobs (set_stdin ?i (set_stdout ?X w))) with (jobs w).
  rewrite bool_decide_eq_true_2 by done.
  unfold bind at 1. unfold ret at 1. print_step. unfold ret. world_eq.
Qed.

Lemma X15_menu_exit_empty_witness :
  show_menu (initial_world [" 4 "; "left"] sample_clock) =
  (Ret tt,
   set_stdin ["left"]
     (set_stdout ([] ++ menu_text ++ ["Goodbye!" +:+ Py.nl])
        (initial_world [" 4 "; "left"] sample_clock))).
Proof.
  apply (X15_menu_exit_empty (initial_world [" 4 "; "left"] sample_clock) " 4 " ["left"]);
    reflexivity.
Defined.

(** The menu when 4 is selected with jobs in the session, after the
    question whether to save was answered. *)
Lemma show_menu_exit_asks w c reply rest :
  stdin w = c :: reply :: rest -> choice_of c = "4" -> jobs w <> [] ->
  show_menu w =
  ((if yes_or "y" reply then save_jobs else ret tt) ;;; print "Goodbye!" ;;; ret tt)
    (set_stdin rest
       (set_stdout
          (stdout w ++ menu_text
           ++ [prompt_text "Save jobs before exiting? (y/n)" (Some "y")]) w)).
Proof.
  intros Hin Hc Hj. rewrite (show_menu_choice w c _ Hin), Hc.
  unfold bind at 1. rewrite menu_action_exit.
  unfold bind at 1. cbn [get_jobs]. unfold after_choice.
  change (jobs (set_stdin ?i (set_stdout ?X w))) with (jobs w).
  rewrite bool_decide_eq_false_2 by done.
  unfold bind at 1.
  rewrite (ask_yes_no _ _ _ _ reply rest) by reflexivity.
  world_norm.
  match goal with
  | |- context [set_stdin rest (set_stdout ?X w)] =>
      replace X with (stdout w ++ menu_text
                      ++ [prompt_text "Save jobs before exiting? (y/n)" (Some "y")])
        by (by rewrite <- app_assoc)
  end.
  unfold bind.
  destruct (yes_or "y" reply).
  - destruct (save_jobs _) as [[[]|e|] w1]; reflexivity.
  - reflexivity.
Qed.

(** X16: selecting 4 with jobs in the session asks whether to save.  On
    [y] (or a blank reply, the default) the jobs are saved exactly as
    [save_jobs] saves them, and the menu ends; on any other reply the
    menu ends with no file operation at all, the session unsaved. *)
Theorem X16_menu_exit_asks_to_save (w : World) (c reply : string)
    (rest : list string) :
  stdin w = c :: reply :: rest -> choice_of c = "4" -> jobs w <> [] ->
  (yes_or "y" reply = true ->
   exists w',
     show_menu w = (Ret tt, w')
     /\ files w' = <[save_file_name (clock w (ticks w)) :=
                       save_header (clock w (S (ticks w))) +:+ save_body (jobs w)]>
                     (files w)
     /\ jobs w' = jobs w /\ stdin w' = rest)
  /\ (yes_or "y" reply = false ->
      show_menu w =
      (Ret tt,
       set_stdin rest
         (set_stdout
            (stdout w ++ menu_text
             ++ [prompt_text "Save jobs before exiting? (y/n)" (Some "y");
                 "Goodbye!" +:+ Py.nl]) w))).
Proof.
  intros Hin Hc Hj.
  split; intros Hy; rewrite (show_menu_exit_asks w c reply rest Hin Hc Hj), Hy.
  - match goal with
    | |- context [bind save_jobs _ ?w0] =>
        destruct (save_jobs_run w0) as (w1 & Es & Hf & Hj1 & Hin1 & _); [exact Hj|]
    end.
    unfold bind at 1. rewrite Es. print_step. unfold ret.
    eexists. split; [reflexivity|].
    change (files (set_stdout ?X w1)) with (files w1).
    change (jobs (set_stdout ?X w1)) with (jobs w1).
    change (stdin (set_stdout ?X w1)) with (stdin w1).
    rewrite Hf, Hj1, Hin1. done.
  - unfold bind at 1. unfold ret at 1. print_step. unfold ret.
    apply (f_equal (pair (Ret tt))). apply (f_equal (set_stdin rest)).
    apply (f_equal (fun o => set_stdout o w)).
    by rewrite <- !app_assoc.
Qed.

Lemma X16_menu_exit_asks_to_save_witness :
  (yes_or "y" "no" = true ->
   exists w',
     show_menu (set_stdin ["4"; "no"; "left"] one_job_world) = (Ret tt, w')
     /\ files w' = <["darkrp_jobs_20240309_090500.lua" :=
                       save_header (mkDatetime 2024 3 9 9 5 1)
                       +:+ save_body (jobs one_job_world)]> ∅
     /\ jobs w' = jobs one_job_world /\ stdin w' = ["left"])
  /\ (yes_or "y" "no" = false ->
      show_menu (set_stdin ["4"; "no"; "left"] one_job_world) =
      (Ret tt,
       set_stdin ["left"]
         (set_stdout
            ([] ++ menu_text
             ++ [prompt_text "Save jobs before exiting? (y/n)" (Some "y");
                 "Goodbye!" +:+ Py.nl])
            (set_stdin ["4"; "no"; "left"] one_job_world)))).
Proof.
  refine (X16_menu_exit_asks_to_save
            (set_stdin ["4"; "no"; "left"] one_job_world) "4" "no" ["left"] _ _ _).
  - reflexivity.
  - reflexivity.
  - discriminate.
Defined.

(** The lines [print_jobs i l] writes. *)
Fixpoint job_lines (i : Z) (l : list Job) : list string :=
  match l with
  | [] => []
  | job :: rest =>
      ((Py.str i +:+ ". " +:+ team_name job +:+ " - " +:+ fmt (job_name job)) +:+ Py.nl)
      :: job_lines (i + 1) rest
  end.

Lemma print_jobs_run l : forall i a b w,
  print_jobs i l (set_stdin a (set_stdout b w))
  = (Ret tt, set_stdin a (set_stdout (b ++ job_lines i l) w)).
Proof.
  induction l as [|j l IH]; intros i a b w; cbn [print_jobs job_lines].
  - by rewrite app_nil_r.
  - print_step. rewrite IH. world_eq.
Qed.

Lemma job_lines_lookup l : forall i k j,
  l !! k = Some j ->
  job_lines i l !! k
  = Some ((Py.str (i + Z.of_nat k) +:+ ". " +:+ team_name j +:+ " - "
           +:+ fmt (job_name j)) +:+ Py.nl).
Proof.
  induction l as [|j0 l IH]; intros i k j Hk; [done|].
  destruct k as [|k]; cbn [job_lines].
  - injection Hk as ->. by rewrite Z.add_0_r.
  - change (job_lines (i + 1) l !! k = Some
      ((Py.str (i + Z.of_nat (S k)) +:+ ". " +:+ team_name j +:+ " - "
        +:+ fmt (job_name j)) +:+ Py.nl)).
    rewrite (IH (i + 1)%Z k j Hk). do 4 f_equal. lia.
Qed.

Lemma job_lines_length l : forall i, length (job_lines i l) = length l.
Proof. induction l as [|j l IH]; intros i; cbn; [done|]. by rewrite IH. Qed.

(** X17: selecting 2 with jobs in the session writes, under a heading,
    one line per job in session order, numbered from 1, with its team
    name and its job name, and then shows the menu again; nothing but the
    output changes. *)
Theorem X17_menu_lists_jobs (w : World) (c : string) (rest : list string) :
  stdin w = c :: rest -> choice_of c = "2" -> jobs w <> [] ->
  exists out,
    show_menu w =
    show_menu
      (set_stdin rest
         (set_stdout
            (stdout w ++ menu_text
             ++ [(Py.nl +:+ Py.repeat "=" 50) +:+ Py.nl;
                 "CREATED JOBS:" +:+ Py.nl;
                 Py.repeat "=" 50 +:+ Py.nl]
             ++ out) w))
    /\ length out = length (jobs w)
    /\ forall k j, jobs w !! k = Some j ->
         out !! k
         = Some ((Py.str (1 + Z.of_nat k) +:+ ". " +:+ team_name j +:+ " - "
                  +:+ fmt (job_name j)) +:+ Py.nl).
Proof.
  intros Hin Hc Hj. exists (job_lines 1 (jobs w)).
  split; [|split; [apply job_lines_length|intros k j; apply job_lines_lookup]].
  rewrite (show_menu_choice w c rest Hin), Hc.
  unfold bind at 1. unfold menu_action.
  rewrite (bool_decide_eq_false_2 (Some "2" = Some "1")) by discriminate.
  rewrite (bool_decide_eq_true_2 (Some "2" = Some "2")) by done.
  unfold bind at 1. cbn [get_jobs]. unfold after_choice.
  change (jobs (set_stdin ?i (set_stdout ?X w))) with (jobs w).
  rewrite bool_decide_eq_false_2 by done.
  unfold bind at 1. do 3 print_step.
  rewrite print_jobs_run. unfold ret.
  f_equal. world_eq.
Qed.

Lemma X17_menu_lists_jobs_witness :
  exists out,
    show_menu (set_stdin ["2"; "4"; "n"] one_job_world) =
    show_menu
      (set_stdin ["4"; "n"]
         (set_stdout
            ([] ++ menu_text
             ++ [(Py.nl +:+ Py.repeat "=" 50) +:+ Py.nl;
                 "CREATED JOBS:" +:+ Py.nl;
                 Py.repeat "=" 50 +:+ Py.nl]
             ++ out) (set_stdin ["2"; "4"; "n"] one_job_world)))
    /\ length out = length (jobs one_job_world)
    /\ forall k j, jobs one_job_world !! k = Some j ->
         out !! k
         = Some ((Py.str (1 + Z.of_nat k) +:+ ". " +:+ team_name j +:+ " - "
                  +:+ fmt (job_name j)) +:+ Py.nl).
Proof.
  refine (X17_menu_lists_jobs (set_stdin ["2"; "4"; "n"] one_job_world)
            "2" ["4"; "n"] _ _ _).
  - reflexivity.
  - reflexivity.
  - discriminate.
Defined.

(** What is written after a job was created from the menu. *)
Definition created_text (block : string) : list string :=
  [(Py.nl +:+ Py.repeat "=" 50) +:+ Py.nl;
   "GENERATED CODE:" +:+ Py.nl;
   Py.repeat "=" 50 +:+ Py.nl;
   block +:+ Py.nl].

Lemma bind_print_generated {A} block (k : unit -> M A) w :
  bind (print_generated block) k w
  = k tt (set_stdout (stdout w ++ created_text block) w).
Proof.
  unfold print_generated, bind, print, ret, created_text, set_stdout.
  cbn [stdin stdout jobs clock ticks files fs_log].
  by rewrite <- !app_assoc.
Qed.

(** X19: selecting 1 (or leaving the selection blank) runs [create_job].
    When that returns, the block is printed and the menu goes on with the
    new job in the session.  When it raises, nothing catches the
    exception: it ends the menu, with the session as it was and nothing
    written to any file, so jobs created before stay unsaved. *)
Theorem X19_menu_create (w w1 : World) (c : string) (rest : list string)
    (r : outcome string) :
  stdin w = c :: rest -> choice_of c = "1" ->
  create_job (after_choice rest w) = (r, w1) ->
  match r with
  | Ret block =>
      show_menu w = show_menu (set_stdout (stdout w1 ++ created_text block) w1)
      /\ exists j, jobs w1 = jobs w ++ [j] /\ code j = block
  | Raise e =>
      show_menu w = (Raise e, w1) /\ jobs w1 = jobs w /\ files w1 = files w
  | OutOfFuel => False
  end.
Proof.
  intros Hin Hc Ec.
  pose proof (create_job_no_io (after_choice rest w)) as Hio.
  pose proof (create_job_appends_its_block _ _ _ Ec) as Hj.
  pose proof (create_job_total (after_choice rest w)) as Ht.
  rewrite Ec in Hio, Ht. cbn [fst snd] in Hio, Ht.
  destruct Hio as (Hf & _).
  assert (Hstart :
    show_menu w =
    match r with
    | Ret block => show_menu (set_stdout (stdout w1 ++ created_text block) w1)
    | Raise e => (Raise e, w1)
    | OutOfFuel => (OutOfFuel, w1)
    end).
  { rewrite (show_menu_choice w c rest Hin), Hc.
    unfold menu_action. rewrite bool_decide_eq_true_2 by done.
    unfold bind at 1. unfold bind at 1. rewrite Ec.
    destruct r as [block|e|]; [|reflexivity..].
    rewrite bind_print_generated. reflexivity. }
  destruct r as [block|e|].
  - split; [exact Hstart|exact Hj].
  - split; [exact Hstart|]. split; [exact Hj|exact Hf].
  - by destruct Ht.
Qed.

Lemma X19_menu_create_witness :
  show_menu (set_stdin ("" :: typo_script) one_job_world)
  = (Raise ValueError,
     snd (create_job (after_choice typo_script
                        (set_stdin ("" :: typo_script) one_job_world))))
  /\ jobs (snd (create_job (after_choice typo_script
                              (set_stdin ("" :: typo_script) one_job_world))))
     = jobs (set_stdin ("" :: typo_script) one_job_world)
  /\ files (snd (create_job (after_choice typo_script
                               (set_stdin ("" :: typo_script) one_job_world))))
     = files (set_stdin ("" :: typo_script) one_job_world).
Proof.
  refine (X19_menu_create (set_stdin ("" :: typo_script) one_job_world) _
            "" typo_script (Raise ValueError) _ _ _).
  - reflexivity.
  - reflexivity.
  - vm_compute. reflexivity.
Defined.

(** ** The program from its start *)

(** What [main] writes before it reads the first reply. *)
Definition greeting : list string :=
  ["🎮 DarkRP Job Generator for Garry's Mod" +:+ Py.nl;
   "Easily create custom DarkRP jobs with this tool!" +:+ Py.nl;
   prompt_text "Do you want to create a job now? (y/n)" (Some "y")].

Definition after_greeting (rest : list string) (w : World) : World :=
  set_stdin rest (set_stdout (stdout w ++ greeting) w).

(** What is written after a job was created, up to and with the question
    whether to save it. *)
Definition generated_text (block : string) : list string :=
  created_text block ++ [prompt_text "Save the job? (y/n)" (Some "y")].

Lemma main_start w first rest :
  stdin w = first :: rest ->
  main w =
  (if yes_or "y" first
   then job_code <- create_job ;;
        print_generated job_code ;;;
        v <- get_user_input "Save the job? (y/n)" (Some "y") true ;;
        yes <- is_y v ;;
        if yes then save_jobs else show_menu
   else show_menu) (after_greeting rest w).
Proof.
  intros Hin. unfold main. do 2 print_step.
  rewrite (ask_yes_no _ _ _ _ first rest) by exact Hin.
  world_norm.
  match goal with
  | |- _ ?W = _ => replace W with (after_greeting rest w)
  end.
  - reflexivity.
  - unfold after_greeting, greeting. world_eq.
Qed.

(** Declining the first question takes [main] straight to the menu, with
    nothing changed but the output. *)
Lemma main_declined_enters_menu (w : World) (first : string) (rest : list string) :
  stdin w = first :: rest -> yes_or "y" first = false ->
  main w = show_menu (after_greeting rest w).
Proof. intros Hin Hn. by rewrite (main_start w first rest Hin), Hn. Qed.

(** [main] after a job was created and the question whether to save it
    was answered. *)
Lemma main_created w w2 first reply block script rest :
  stdin w = first :: script -> yes_or "y" first = true ->
  create_job (after_greeting script w) = (Ret block, w2) ->
  stdin w2 = reply :: rest ->
  main w =
  (if yes_or "y" reply then save_jobs else show_menu)
    (set_stdin rest (set_stdout (stdout w2 ++ generated_text block) w2)).
Proof.
  intros Hin Hy Ec Hin2.
  rewrite (main_start w first script Hin), Hy.
  unfold bind at 1. rewrite Ec. rewrite bind_print_generated.
  rewrite (ask_yes_no _ _ _ _ reply rest) by exact Hin2.
  match goal with
  | |- _ ?W = _ =>
      replace W with (set_stdin rest (set_stdout (stdout w2 ++ generated_text block) w2))
  end.
  - reflexivity.
  - unfold generated_text, after_input.
    change (stdout (set_stdout ?X w2)) with X.
    change (set_stdout ?Y (set_stdout ?X w2)) with (set_stdout Y w2).
    world_eq.
Qed.

(** X18: started with an empty session, [main] with the first question
    answered yes creates one job.  When the question whether to save it
    is answered yes, the program ends with one new file whose content is
    the header and then exactly the block just created and an empty
    line; on any other reply nothing is written and the menu starts with
    that job in the session. *)
Theorem X18_main_creates_then_saves (w w2 : World) (first reply block : string)
    (script rest : list string) :
  stdin w = first :: script -> yes_or "y" first = true -> jobs w = [] ->
  create_job (after_greeting script w) = (Ret block, w2) ->
  stdin w2 = reply :: rest ->
  (yes_or "y" reply = true ->
   exists w',
     main w = (Ret tt, w')
     /\ files w' = <[save_file_name (clock w (ticks w)) :=
                       save_header (clock w (S (ticks w)))
                       +:+ (block +:+ (Py.nl +:+ Py.nl))]> (files w)
     /\ stdin w' = rest
     /\ exists j, jobs w' = [j] /\ code j = block)
  /\ (yes_or "y" reply = false ->
      main w = show_menu (set_stdin rest
                            (set_stdout (stdout w2 ++ generated_text block) w2))
      /\ files w2 = files w
      /\ exists j, jobs w2 = [j] /\ code j = block).
Proof.
  intros Hin Hy Hj Ec Hin2.
  pose proof (create_job_no_io (after_greeting script w)) as Hio.
  pose proof (create_job_appends_its_block _ _ _ Ec) as (j & Hj2 & Hcode).
  rewrite Ec in Hio. cbn [snd] in Hio. destruct Hio as (Hf & _ & Ht & Hc).
  change (jobs (after_greeting script w)) with (jobs w) in Hj2.
  change (files (after_greeting script w)) with (files w) in Hf.
  change (ticks (after_greeting script w)) with (ticks w) in Ht.
  change (clock (after_greeting script w)) with (clock w) in Hc.
  rewrite Hj in Hj2. cbn [app] in Hj2.
  split; intros Hr;
    rewrite (main_created w w2 first reply block script rest Hin Hy Ec Hin2), Hr.
  - match goal with
    | |- context [save_jobs ?w0] =>
        destruct (save_jobs_run w0) as (w' & Es & Hf' & Hj' & Hin' & _)
    end.
    { change (jobs w2 <> []). by rewrite Hj2. }
    exists w'. split; [exact Es|].
    change (files w' = <[save_file_name (clock w2 (ticks w2)) :=
                           save_header (clock w2 (S (ticks w2)))
                           +:+ save_body (jobs w2)]> (files w2)) in Hf'.
    change (jobs w' = jobs w2) in Hj'. change (stdin w' = rest) in Hin'.
    rewrite Hf', Hj', Hin', Hf, Ht, Hc, Hj2. cbn [save_body].
    rewrite Hcode, str_app_nil_r. eauto.
  - eauto.
Qed.

Lemma X18_main_creates_then_saves_witness :
  (yes_or "y" "" = true ->
   exists w',
     main (initial_world ("y" :: example_script ++ [""; "left"]) noon_clock)
     = (Ret tt, w')
     /\ files w' = <["darkrp_jobs_20240309_120000.lua" :=
                       save_header (mkDatetime 2024 3 9 12 0 0)
                       +:+ (example_block +:+ (Py.nl +:+ Py.nl))]> ∅
     /\ stdin w' = ["left"]
     /\ exists j, jobs w' = [j] /\ code j = example_block)
  /\ (yes_or "y" "" = false ->
      main (initial_world ("y" :: example_script ++ [""; "left"]) noon_clock)
      = show_menu
          (set_stdin ["left"]
             (set_stdout
                (stdout (snd (create_job
                                (after_greeting (example_script ++ [""; "left"])
                                   (initial_world ("y" :: example_script ++ [""; "left"])
                                                  noon_clock))))
                 ++ generated_text example_block)
                (snd (create_job
                        (after_greeting (example_script ++ [""; "left"])
                           (initial_world ("y" :: example_script ++ [""; "left"])
                                          noon_clock))))))
      /\ files (snd (create_job
                       (after_greeting (example_script ++ [""; "left"])
                          (initial_world ("y" :: example_script ++ [""; "left"])
                                         noon_clock))))
         = ∅
      /\ exists j,
           jobs (snd (create_job
                        (after_greeting (example_script ++ [""; "left"])
                           (initial_world ("y" :: example_script ++ [""; "left"])
                                          noon_clock))))
           = [j]
           /\ code j = example_block).
Proof.
  refine (X18_main_creates_then_saves
            (initial_world ("y" :: example_script ++ [""; "left"]) noon_clock)
            _ "y" "" example_block (example_script ++ [""; "left"]) ["left"]
            _ _ _ _ _).
  - reflexivity.
  - reflexivity.
  - reflexivity.
  - vm_compute. reflexivity.
  - vm_compute. reflexivity.
Defined.
